(** * action-ros-ci: the ROS 2 CI pipeline of [src/action-ros2-ci.ts]

    The action is one asynchronous function, [run], that shells out to
    rosdep, vcs and colcon through [execBashCommand].  The development
    embeds it as a program over an effect signature (the calls handed to the
    GitHub Actions toolkit), interprets that signature over an abstract
    host, and proves the trace properties of the pipeline.

    - A string is the UTF-8 encoding of the JavaScript string it stands
      for; [\s] and [trim] read the white space of JavaScript in it.
    - The toolkit ([@actions/core], [@actions/exec], [@actions/io]) and
      Node's [path] are not code of the repository: they are modelled from
      their documentation, the host-dependent parts as fields of [Host].
    - A spawned process is a function of the world that ends with an
      integer exit code; what bash, colcon, vcs and rosdep do is not
      modelled, and no theorem depends on it.
    - The runner sets [GITHUB_WORKSPACE] and [GITHUB_REPOSITORY]; they are
      strings, [GITHUB_HEAD_REF] may be undefined. *)

From Stdlib Require Import String Ascii List ZArith Bool Lia DecimalString.
Import ListNotations.
Open Scope list_scope.
Open Scope string_scope.

(** ** JavaScript strings *)

Module JS.

(** The line feed and the double quote, which the command lines contain. *)
Definition LF : string := String "010"%char "".
Definition DQ : string := String "034"%char "".

(** The white space of JavaScript, which the regular expression [\s]
    matches and [String.prototype.trim] strips: TAB, LF, VT, FF, CR, SPACE,
    U+00A0, U+1680, U+2000 to U+200A, U+2028, U+2029, U+202F, U+205F, U+3000
    and U+FEFF.  In UTF-8 the first six are one byte, U+00A0 is two bytes
    and the others are three. *)

(** TAB, LF, VT, FF, CR and SPACE. *)
Definition is_space (c : ascii) : bool :=
  let n := nat_of_ascii c in
  Nat.eqb n 32 || (Nat.leb 9 n && Nat.leb n 13).

(** U+00A0 is [C2 A0]. *)
Definition is_space2 (a b : ascii) : bool :=
  Nat.eqb (nat_of_ascii a) 194 && Nat.eqb (nat_of_ascii b) 160.

(** U+1680 is [E1 9A 80]; U+2000 to U+200A are [E2 80 80] to [E2 80 8A];
    U+2028, U+2029 and U+202F are [E2 80 A8], [E2 80 A9] and [E2 80 AF];
    U+205F is [E2 81 9F]; U+3000 is [E3 80 80]; U+FEFF is [EF BB BF]. *)
Definition is_space3 (a b c : ascii) : bool :=
  let a := nat_of_ascii a in
  let b := nat_of_ascii b in
  let c := nat_of_ascii c in
  (Nat.eqb a 225 && Nat.eqb b 154 && Nat.eqb c 128)
  || (Nat.eqb a 226 && Nat.eqb b 128
      && ((Nat.leb 128 c && Nat.leb c 138)
          || Nat.eqb c 168 || Nat.eqb c 169 || Nat.eqb c 175))
  || (Nat.eqb a 226 && Nat.eqb b 129 && Nat.eqb c 159)
  || (Nat.eqb a 227 && Nat.eqb b 128 && Nat.eqb c 128)
  || (Nat.eqb a 239 && Nat.eqb b 187 && Nat.eqb c 191).

(** The number of bytes of the white-space character that [s] starts with;
    0 when [s] starts with none. *)
Definition space_width (s : string) : nat :=
  match s with
  | String a r =>
      if is_space a then 1
      else match r with
           | String b r' =>
               if is_space2 a b then 2
               else match r' with
                    | String c _ => if is_space3 a b c then 3 else 0
                    | EmptyString => 0
                    end
           | EmptyString => 0
           end
  | EmptyString => 0
  end.

(** [s.split(sep)] for a separator that matches exactly one character, of
    one byte: the pieces between the matches, empty pieces kept; the empty
    string gives one empty piece. *)
Fixpoint split_by (sep : ascii -> bool) (s : string) : list string :=
  match s with
  | EmptyString => [""]
  | String c r =>
      if sep c then "" :: split_by sep r
      else match split_by sep r with
           | h :: t => String c h :: t
           | [] => [String c ""]
           end
  end.

(** [s.split(RegExp("\\s"))]: the pieces between the white-space
    characters, empty pieces kept.  [skip] is the number of bytes still to
    pass of the white-space character being read. *)
Fixpoint split_space_from (skip : nat) (s : string) : list string :=
  match s with
  | EmptyString => [""]
  | String c r =>
      match skip with
      | S k => split_space_from k r
      | O =>
          match space_width s with
          | S k => "" :: split_space_from k r
          | O =>
              match split_space_from 0 r with
              | h :: t => String c h :: t
              | [] => [String c ""]
              end
          end
      end
  end.

Definition split_space (s : string) : list string := split_space_from 0 s.

(** [a.join(sep)]. *)
Definition join (sep : string) (a : list string) : string := String.concat sep a.

(** [s.trimStart()], with [skip] as in [split_space_from]. *)
Fixpoint trimStart_from (skip : nat) (s : string) : string :=
  match s with
  | EmptyString => EmptyString
  | String c r =>
      match skip with
      | S k => trimStart_from k r
      | O =>
          match space_width s with
          | S k => trimStart_from k r
          | O => s
          end
      end
  end.

Definition trimStart (s : string) : string := trimStart_from 0 s.

(** [s.trimEnd()]: [s] up to the point from which it is white space only. *)
Fixpoint trimEnd (s : string) : string :=
  match s with
  | EmptyString => EmptyString
  | String c r => if trimStart s =? "" then "" else String c (trimEnd r)
  end.

Definition reverse (s : string) : string :=
  string_of_list_ascii (rev (list_ascii_of_string s)).

(** [s.trim()]. *)
Definition trim (s : string) : string := trimEnd (trimStart s).

(** Truthiness of a string: every string but the empty one. *)
Definition truthy (s : string) : bool := negb (s =? "").

(** A value of type [string | undefined] interpolated in a template
    literal: [undefined] prints as the nine letters of its name. *)
Definition interpolate (v : option string) : string :=
  match v with
  | Some s => s
  | None => "undefined"
  end.

(** [a || b] for [a : string | undefined]. *)
Definition or_else (a : option string) (b : string) : string :=
  match a with
  | Some s => if truthy s then s else b
  | None => b
  end.

(** A number interpolated in a template literal (integers only). *)
Definition number (n : Z) : string := NilEmpty.string_of_int (Z.to_int n).

End JS.

(** ** Node's [path] module, POSIX flavour

    Modelled from Node's documentation of [path.resolve], [path.normalize]
    and [path.join]: the source only calls them. *)

Module NodePath.

Definition is_slash (c : ascii) : bool := Ascii.eqb c "/"%char.

Definition segments (p : string) : list string := JS.split_by is_slash p.

(** [normalizeString]: the segments are read left to right onto a stack;
    empty and ["."] segments are dropped, [".."] pops the last segment
    kept, and is itself kept only when [allowAboveRoot] and nothing can
    be popped.  [stack] is the reversed list of the segments kept so far. *)
Fixpoint normalize_onto (allowAboveRoot : bool) (stack segs : list string)
  : list string :=
  match segs with
  | [] => rev stack
  | s :: r =>
      if (s =? "") || (s =? ".") then normalize_onto allowAboveRoot stack r
      else if s =? ".." then
        match stack with
        | top :: below =>
            if top =? ".." then
              normalize_onto allowAboveRoot
                (if allowAboveRoot then ".." :: stack else stack) r
            else normalize_onto allowAboveRoot below r
        | [] =>
            normalize_onto allowAboveRoot
              (if allowAboveRoot then [".."] else []) r
        end
      else normalize_onto allowAboveRoot (s :: stack) r
  end.

Definition is_absolute (p : string) : bool :=
  match p with
  | String c _ => is_slash c
  | EmptyString => false
  end.

(** An absolute path printed from its segments. *)
Definition render (segs : list string) : string := "/" ++ JS.join "/" segs.

(** [path.resolve(p)] in a process whose working directory is the absolute
    path [cwd]. *)
Definition resolve (cwd p : string) : string :=
  let full := if is_absolute p then p else cwd ++ "/" ++ p in
  render (normalize_onto false [] (segments full)).

Definition ends_with_slash (p : string) : bool :=
  match JS.reverse p with
  | String c _ => is_slash c
  | EmptyString => false
  end.

(** [path.normalize(p)]. *)
Definition normalize (p : string) : string :=
  if p =? "" then "." else
  let body := JS.join "/" (normalize_onto (negb (is_absolute p)) [] (segments p)) in
  if body =? "" then
    (if is_absolute p then "/" else if ends_with_slash p then "./" else ".")
  else
    let body := if ends_with_slash p then body ++ "/" else body in
    if is_absolute p then "/" ++ body else body.

(** [path.join(...parts)]. *)
Definition join (parts : list string) : string :=
  normalize (JS.join "/" (filter JS.truthy parts)).

Definition no_slash (s : string) : Prop :=
  forall c, In c (list_ascii_of_string s) -> is_slash c = false.

(** A segment of an absolute path in normal form. *)
Definition proper_segment (s : string) : Prop :=
  s <> "" /\ s <> "." /\ s <> ".." /\ no_slash s.

End NodePath.

(** ** The host and the invocation *)

(** What the process reads from and does to the machine it runs on.  The
    file system, the installed tools and the network are the [World]; a
    spawned process and the file operations of [@actions/io] transform it. *)
Class Host : Type := {
  World : Type;
  (** [process.platform] *)
  process_platform : string;
  (** [os.homedir()] *)
  os_homedir : string;
  (** [path.join] and [path.resolve] of the platform's [path] module *)
  path_join : list string -> string;
  path_resolve : string -> string;
  (** [fs.existsSync], on the file system the process starts with *)
  fs_existsSync : string -> bool;
  (** the tool path a [ToolRunner] prints in its error message *)
  toolPath : string -> string;
  (** a child process: tool, arguments and working directory to the world
      it leaves and its exit code.  The process starts and ends with an
      integer exit code: a tool runner that rejects before it has started a
      process (a working directory that does not exist, a tool that is not
      found), and the exit code null of a process ended by a signal, are
      outside the model *)
  spawn : string -> list string -> option string -> World -> World * Z;
  (** [io.rmRF] and [io.mkdirP]: the world they leave and the message of
      the error they throw, if any *)
  fs_rmRF : string -> World -> World * option string;
  fs_mkdirP : string -> World -> World * option string
}.

(** [github.context.repo]. *)
Module Repo.
Record t : Type := { owner : string; repo : string }.
End Repo.

(** The inputs of the action, the environment variables and the GitHub
    context the run reads.  [INPUT name] is the [INPUT_<NAME>] variable, the
    empty string when it is not set; [payload_pull_request] is
    [payload.pull_request.head.repo.full_name] when the event is a pull
    request.  [GITHUB_WORKSPACE] and [GITHUB_REPOSITORY] are set by the
    runner; [GITHUB_HEAD_REF] may be undefined. *)
Record Invocation : Type := {
  INPUT : string -> string;
  GITHUB_WORKSPACE : string;
  GITHUB_REPOSITORY : string;
  GITHUB_HEAD_REF : option string;
  context_repo : Repo.t;
  context_sha : string;
  payload_pull_request : option string
}.

(** ** Effects *)

(** [im.ExecOptions], the two fields the action sets. *)
Record ExecOptions : Type := { cwd : option string; ignoreReturnCode : bool }.

(** The calls that leave the process: a [ToolRunner] executed inside a log
    group, the file operations of [@actions/io], and the two commands of
    [@actions/core]. *)
Inductive Action : Type :=
| Exec (title tool : string) (args : list string) (options : option ExecOptions)
| RmRF (inputPath : string)
| MkdirP (fsPath : string)
| AddPath (inputPath : string)
| SetFailed (message : string).

(** What the host answers. *)
Inductive Status : Type :=
| Exited (code : Z)
| Done
| Failed (message : string).

(** A program: a tree of actions.  [Throw] is a thrown [Error] with its
    message, [Return_] the [return;] statement of the enclosing function. *)
Inductive Prog (A : Type) : Type :=
| Pure (a : A)
| Throw (message : string)
| Return_
| Perform (a : Action) (k : Status -> Prog A).

Arguments Pure {A} a.
Arguments Throw {A} message.
Arguments Return_ {A}.
Arguments Perform {A} a k.

Fixpoint bind {A B : Type} (p : Prog A) (f : A -> Prog B) : Prog B :=
  match p with
  | Pure a => f a
  | Throw m => Throw m
  | Return_ => Return_
  | Perform a k => Perform a (fun st => bind (k st) f)
  end.

Declare Scope prog_scope.
Delimit Scope prog_scope with prog.
Notation "x <- p ;; q" := (bind p (fun x => q))
  (at level 100, p at next level, right associativity) : prog_scope.
Notation "p ;; q" := (bind p (fun _ => q))
  (at level 100, right associativity) : prog_scope.

(** [try { p } catch (error) { handler(error.message) }]. *)
Fixpoint try_catch {A : Type} (p : Prog A) (handler : string -> Prog A) : Prog A :=
  match p with
  | Pure a => Pure a
  | Throw m => handler m
  | Return_ => Return_
  | Perform a k => Perform a (fun st => try_catch (k st) handler)
  end.

(** How a function body ends. *)
Inductive Outcome (A : Type) : Type :=
| Normal (a : A)
| Returned
| Thrown (message : string).

Arguments Normal {A} a.
Arguments Returned {A}.
Arguments Thrown {A} message.

Definition exec_cwd (options : option ExecOptions) : option string :=
  match options with
  | Some o => cwd o
  | None => None
  end.

Definition exec_ignoreReturnCode (options : option ExecOptions) : bool :=
  match options with
  | Some o => ignoreReturnCode o
  | None => false
  end.

Section Pipeline.

Context {host : Host}.

(** One action and the world after it. *)
Record Event : Type := { ev_action : Action; ev_status : Status; ev_world : World }.

(** The process: the world, the actions performed so far, oldest first,
    and the failure message [core.setFailed] recorded (it sets the exit
    code of the process to 1). *)
Record St : Type := { world : World; log : list Event; failure : option string }.

Definition init (w : World) : St := {| world := w; log := []; failure := None |}.

Definition do_action (a : Action) (w : World) : World * Status :=
  match a with
  | Exec _ tool args options =>
      let (w', code) := spawn tool args (exec_cwd options) w in (w', Exited code)
  | RmRF p =>
      let (w', r) := fs_rmRF p w in
      (w', match r with None => Done | Some m => Failed m end)
  | MkdirP p =>
      let (w', r) := fs_mkdirP p w in
      (w', match r with None => Done | Some m => Failed m end)
  | AddPath _ => (w, Done)
  | SetFailed _ => (w, Done)
  end.

Definition record (s : St) (a : Action) (st : Status) (w' : World) : St :=
  {| world := w';
     log := (log s ++ [{| ev_action := a; ev_status := st; ev_world := w' |}])%list;
     failure := match a with SetFailed m => Some m | _ => failure s end |}.

Fixpoint exec {A : Type} (p : Prog A) (s : St) : St * Outcome A :=
  match p with
  | Pure a => (s, Normal a)
  | Throw m => (s, Thrown m)
  | Return_ => (s, Returned)
  | Perform a k =>
      let (w', st) := do_action a (world s) in
      exec (k st) (record s a st w')
  end.

(** *** The toolkit

    Modelled from the documentation of [@actions/core], [@actions/exec]
    and [@actions/io]: the source only calls them. *)

(** The error a call rejects with: a [ToolRunner] whose process has
    exited rejects on a non-zero exit code unless [ignoreReturnCode] is set;
    [io.rmRF] and [io.mkdirP] reject with the error of the file system. *)
Definition rejection (a : Action) (st : Status) : option string :=
  match a, st with
  | Exec _ tool _ options, Exited code =>
      if (code =? 0)%Z || exec_ignoreReturnCode options then None
      else Some ("The process '" ++ toolPath tool ++ "' failed with exit code "
                 ++ JS.number code)
  | _, Failed m => Some m
  | _, _ => None
  end.

Definition attempt (a : Action) : Prog Status :=
  Perform a (fun st =>
    match rejection a st with
    | Some m => Throw m
    | None => Pure st
    end).

(** [core.group(message, () => new ToolRunner(tool, args, options).exec())] *)
Definition ToolRunner_exec (message tool : string) (args : list string)
    (options : option ExecOptions) : Prog Z :=
  (st <- attempt (Exec message tool args options) ;;
   Pure (match st with Exited code => code | _ => 0%Z end))%prog.

Definition io_rmRF (inputPath : string) : Prog unit :=
  (attempt (RmRF inputPath) ;; Pure tt)%prog.

Definition io_mkdirP (fsPath : string) : Prog unit :=
  (attempt (MkdirP fsPath) ;; Pure tt)%prog.

Definition core_addPath (inputPath : string) : Prog unit :=
  Perform (AddPath inputPath) (fun _ => Pure tt).

Definition core_setFailed (message : string) : Prog unit :=
  Perform (SetFailed message) (fun _ => Pure tt).

(** [core.getInput(name, { required })]: the variable, checked before it
    is trimmed. *)
Definition core_getInput (inv : Invocation) (name : string) (required : bool)
  : Prog string :=
  let val := INPUT inv name in
  if required && negb (JS.truthy val)
  then Throw ("Input required and not supplied: " ++ name)
  else Pure (JS.trim val).

(** *** [resolveVcsRepoFileUrl] (lines 21-27) *)
Definition resolveVcsRepoFileUrl (vcsRepoFileUrl : string) : string :=
  if fs_existsSync vcsRepoFileUrl
  then "file://" ++ path_resolve vcsRepoFileUrl
  else vcsRepoFileUrl.

(** *** [execBashCommand] (lines 38-54) *)

Definition bashScript (commandLine : string) (commandPrefix : option string) : string :=
  JS.interpolate commandPrefix ++ commandLine.

(** The action one call of [execBashCommand] performs. *)
Definition bash_action (commandLine : string) (commandPrefix : option string)
    (options : option ExecOptions) (log_message : option string) : Action :=
  let bashScript := bashScript commandLine commandPrefix in
  let message :=
    JS.or_else log_message ("Invoking " ++ JS.DQ ++ "bash -c '" ++ bashScript ++ "'") in
  Exec message "bash" ["-c"; bashScript] options.

Definition execBashCommand (commandLine : string) (commandPrefix : option string)
    (options : option ExecOptions) (log_message : option string) : Prog Z :=
  let bashScript := bashScript commandLine commandPrefix in
  let message :=
    JS.or_else log_message ("Invoking " ++ JS.DQ ++ "bash -c '" ++ bashScript ++ "'") in
  ToolRunner_exec message "bash" ["-c"; bashScript] options.

(** *** The command lines of [run] *)

(** [core.getInput(name)] for an input that is not required. *)
Definition input_value (inv : Invocation) (name : string) : string :=
JS.trim (INPUT inv name).

(** Lines 73-87: one [source] per distribution, in the order of the list. *)
Definition source_prefix (sourceRosBinaryInstallationList : list string) : string :=
fold_left
  (fun commandPrefix rosDistribution =>
     commandPrefix ++ "source /opt/ros/" ++ rosDistribution ++ "/setup.sh && ")
  sourceRosBinaryInstallationList "".

(** Line 109. *)
Definition importCmd (vcsRepoFileUrl : string) : string :=
"curl '" ++ vcsRepoFileUrl ++ "' | vcs import src/".

(** Line 119. *)
Definition removeTargetCmd (ros2WorkspaceDir repo : string) : string :=
"find " ++ JS.DQ ++ ros2WorkspaceDir ++ JS.DQ ++ " -type d -and -name "
  ++ JS.DQ ++ repo ++ JS.DQ ++ " | xargs rm -rf".

(** Lines 133-139: the here-document. *)
Definition importTargetCmd (repo repoFullName commitRef : string) : string :=
"vcs import src/ << EOF" ++ JS.LF
  ++ "repositories:" ++ JS.LF
  ++ "  " ++ repo ++ ":" ++ JS.LF
  ++ "    type: git" ++ JS.LF
  ++ "    url: " ++ JS.DQ ++ "https://github.com/" ++ repoFullName ++ ".git" ++ JS.DQ ++ JS.LF
  ++ "    version: " ++ JS.DQ ++ commitRef ++ JS.DQ ++ JS.LF
  ++ "EOF".

(** Lines 147-149. *)
Definition pruneCmd (packageNameList : list string) : string :=
"diff --new-line-format=" ++ JS.DQ ++ JS.DQ ++ " --unchanged-line-format=" ++ JS.DQ ++ JS.DQ
  ++ " <(colcon list -p) <(colcon list --packages-up-to "
  ++ JS.join " " packageNameList ++ " -p) | xargs rm -rf".

(** Line 157, up to the [||]. *)
Definition rosdepInstall : string :=
"DEBIAN_FRONTEND=noninteractive RTI_NC_LICENSE_ACCEPTED=yes rosdep install -r --from-paths src --ignore-src --rosdistro eloquent -y".

(** Line 157. *)
Definition rosdepInstallCmd : string := rosdepInstall ++ " || true".

(** Line 164. *)
Definition mixinAddCmd (colconMixinRepo : string) : string :=
"colcon mixin add default '" ++ colconMixinRepo ++ "'".

(** Line 167. *)
Definition mixinUpdateCmd : string := "colcon mixin update default".

(** Lines 170-173. *)
Definition extra_options (colconMixinName : string) : list string :=
if JS.truthy colconMixinName then ([] ++ ["--mixin"; colconMixinName])%list else [].

(** Lines 190-192. *)
Definition colconBuildCmd (packageNameList extra_options : list string) : string :=
"colcon build --event-handlers console_cohesion+ --symlink-install --packages-up-to "
  ++ JS.join " " packageNameList ++ " " ++ JS.join " " extra_options.

(** Lines 194-196. *)
Definition colconTestCmd (packageNameList extra_options : list string) : string :=
"colcon test --event-handlers console_cohesion+ --pytest-args --cov=. --cov-report=xml --return-code-on-test-failure --packages-select "
  ++ JS.join " " packageNameList ++ " " ++ JS.join " " extra_options.

(** Lines 201-203. *)
Definition colconLcovResultCmd (packageNameList : list string) : string :=
"colcon lcov-result --packages-select " ++ JS.join " " packageNameList.

(** *** [run] (lines 56-211) *)

Definition run (inv : Invocation) : Prog unit :=
try_catch
  (let repo := context_repo inv in
   let workspace := GITHUB_WORKSPACE inv in
   colconMixinName <- core_getInput inv "colcon-mixin-name" false ;;
   colconMixinRepo <- core_getInput inv "colcon-mixin-repository" false ;;
   packageName <- core_getInput inv "package-name" true ;;
   let packageNameList := JS.split_space packageName in
   let ros2WorkspaceDir := path_join [workspace; "ros2_ws"] in
   sourceRosBinaryInstallation <-
     core_getInput inv "source-ros-binary-installation" false ;;
   vcsRepoFileUrl <-
     (url <- core_getInput inv "vcs-repo-file-url" true ;;
      Pure (resolveVcsRepoFileUrl url)) ;;
   commandPrefix <-
     (if JS.truthy sourceRosBinaryInstallation then
        if negb (process_platform =? "linux") then
          core_setFailed "sourcing binary installation is only available on Linux" ;;
          Return_
        else
          let sourceRosBinaryInstallationList :=
            JS.split_space sourceRosBinaryInstallation in
          Pure (source_prefix sourceRosBinaryInstallationList)
      else Pure "") ;;
   (if negb (process_platform =? "win32") then
      execBashCommand "rosdep update" (Some commandPrefix) None None ;; Pure tt
    else Pure tt) ;;
   io_rmRF (path_join [os_homedir; ".colcon"]) ;;
   io_rmRF ros2WorkspaceDir ;;
   io_mkdirP (ros2WorkspaceDir ++ "/src") ;;
   let options := {| cwd := Some ros2WorkspaceDir; ignoreReturnCode := false |} in
   execBashCommand (importCmd vcsRepoFileUrl) (Some commandPrefix) (Some options) None ;;
   execBashCommand (removeTargetCmd ros2WorkspaceDir (Repo.repo repo))
     (Some commandPrefix) None None ;;
   let repoFullName :=
     match payload_pull_request inv with
     | Some head_repo_full_name => head_repo_full_name
     | None => GITHUB_REPOSITORY inv
     end in
   let headRef := GITHUB_HEAD_REF inv in
   let commitRef := JS.or_else headRef (context_sha inv) in
   execBashCommand (importTargetCmd (Repo.repo repo) repoFullName commitRef)
     (Some commandPrefix) (Some options) None ;;
   execBashCommand (pruneCmd packageNameList) (Some commandPrefix) (Some options) None ;;
   execBashCommand rosdepInstallCmd (Some commandPrefix) (Some options) None ;;
   (if JS.truthy colconMixinName && JS.truthy colconMixinRepo then
      execBashCommand (mixinAddCmd colconMixinRepo) (Some commandPrefix) None None ;;
      execBashCommand mixinUpdateCmd (Some commandPrefix) None None ;;
      Pure tt
    else Pure tt) ;;
   let extra_options := extra_options colconMixinName in
   core_addPath (path_join [ros2WorkspaceDir; "install"; "bin"]) ;;
   let colconBuildCmd := colconBuildCmd packageNameList extra_options in
   execBashCommand colconBuildCmd (Some commandPrefix) (Some options) None ;;
   let colconTestCmd := colconTestCmd packageNameList extra_options in
   execBashCommand colconTestCmd (Some commandPrefix) (Some options) None ;;
   let colconLcovResultCmd := colconLcovResultCmd packageNameList in
   execBashCommand colconLcovResultCmd None
     (Some {| cwd := Some ros2WorkspaceDir; ignoreReturnCode := true |}) None ;;
   Pure tt)%prog
  (fun error_message => core_setFailed error_message).

(** The process: [run();] from a world [w]. *)
Definition main (inv : Invocation) (w : World) : St :=
fst (exec (run inv) (init w)).

(** *** The values and the actions of one run

    The constants [run] computes from the invocation, under the names the
    source gives them, and the action of each call of [execBashCommand], in
    the order of the source. *)

Definition colconMixinName (inv : Invocation) : string :=
input_value inv "colcon-mixin-name".

Definition colconMixinRepo (inv : Invocation) : string :=
input_value inv "colcon-mixin-repository".

Definition packageNameList (inv : Invocation) : list string :=
JS.split_space (input_value inv "package-name").

Definition ros2WorkspaceDir (inv : Invocation) : string :=
path_join [GITHUB_WORKSPACE inv; "ros2_ws"].

Definition sourceRosBinaryInstallation (inv : Invocation) : string :=
input_value inv "source-ros-binary-installation".

Definition vcsRepoFileUrl (inv : Invocation) : string :=
resolveVcsRepoFileUrl (input_value inv "vcs-repo-file-url").

Definition commandPrefix (inv : Invocation) : string :=
if JS.truthy (sourceRosBinaryInstallation inv)
then source_prefix (JS.split_space (sourceRosBinaryInstallation inv))
else "".

Definition repoFullName (inv : Invocation) : string :=
match payload_pull_request inv with
| Some head_repo_full_name => head_repo_full_name
| None => GITHUB_REPOSITORY inv
end.

Definition commitRef (inv : Invocation) : string :=
JS.or_else (GITHUB_HEAD_REF inv) (context_sha inv).

Definition options (inv : Invocation) : ExecOptions :=
{| cwd := Some (ros2WorkspaceDir inv); ignoreReturnCode := false |}.

Definition rosdepUpdate (inv : Invocation) : Action :=
bash_action "rosdep update" (Some (commandPrefix inv)) None None.

Definition importManifest (inv : Invocation) : Action :=
bash_action (importCmd (vcsRepoFileUrl inv)) (Some (commandPrefix inv))
  (Some (options inv)) None.

Definition removeTarget (inv : Invocation) : Action :=
bash_action (removeTargetCmd (ros2WorkspaceDir inv) (Repo.repo (context_repo inv)))
  (Some (commandPrefix inv)) None None.

Definition importTarget (inv : Invocation) : Action :=
bash_action (importTargetCmd (Repo.repo (context_repo inv)) (repoFullName inv) (commitRef inv))
  (Some (commandPrefix inv)) (Some (options inv)) None.

Definition prune (inv : Invocation) : Action :=
bash_action (pruneCmd (packageNameList inv)) (Some (commandPrefix inv))
  (Some (options inv)) None.

Definition installDependencies (inv : Invocation) : Action :=
bash_action rosdepInstallCmd (Some (commandPrefix inv)) (Some (options inv)) None.

Definition mixinAdd (inv : Invocation) : Action :=
bash_action (mixinAddCmd (colconMixinRepo inv)) (Some (commandPrefix inv)) None None.

Definition mixinUpdate (inv : Invocation) : Action :=
bash_action mixinUpdateCmd (Some (commandPrefix inv)) None None.

Definition build (inv : Invocation) : Action :=
bash_action (colconBuildCmd (packageNameList inv) (extra_options (colconMixinName inv)))
  (Some (commandPrefix inv)) (Some (options inv)) None.

Definition test (inv : Invocation) : Action :=
bash_action (colconTestCmd (packageNameList inv) (extra_options (colconMixinName inv)))
  (Some (commandPrefix inv)) (Some (options inv)) None.

Definition coverage (inv : Invocation) : Action :=
bash_action (colconLcovResultCmd (packageNameList inv)) None
  (Some {| cwd := Some (ros2WorkspaceDir inv); ignoreReturnCode := true |}) None.

(** Lines 89-103. *)
Definition reset (inv : Invocation) : list Action :=
((if negb (process_platform =? "win32") then [rosdepUpdate inv] else [])
 ++ [RmRF (path_join [os_homedir; ".colcon"]);
     RmRF (ros2WorkspaceDir inv);
     MkdirP (ros2WorkspaceDir inv ++ "/src")])%list.

(** Lines 162-168. *)
Definition registerMixin (inv : Invocation) : list Action :=
if JS.truthy (colconMixinName inv) && JS.truthy (colconMixinRepo inv)
then [mixinAdd inv; mixinUpdate inv]
else [].

(** Lines 89-160: everything up to the installation of the system
    dependencies. *)
Definition assemble (inv : Invocation) : list Action :=
(reset inv
 ++ [importManifest inv; removeTarget inv; importTarget inv; prune inv])%list.

(** Lines 162-207. *)
Definition build_and_verify (inv : Invocation) : list Action :=
(registerMixin inv
 ++ [AddPath (path_join [ros2WorkspaceDir inv; "install"; "bin"]);
     build inv; test inv; coverage inv])%list.

(** The actions of a run in which nothing fails, in order. *)
Definition plan (inv : Invocation) : list Action :=
(assemble inv ++ installDependencies inv :: build_and_verify inv)%list.

(** The command lines of a run that are passed [commandPrefix], in order. *)
Definition command_lines (inv : Invocation) : list string :=
((if negb (process_platform =? "win32") then ["rosdep update"] else [])
 ++ [importCmd (vcsRepoFileUrl inv);
     removeTargetCmd (ros2WorkspaceDir inv) (Repo.repo (context_repo inv));
     importTargetCmd (Repo.repo (context_repo inv)) (repoFullName inv) (commitRef inv);
     pruneCmd (packageNameList inv);
     rosdepInstallCmd]
 ++ (if JS.truthy (colconMixinName inv) && JS.truthy (colconMixinRepo inv)
     then [mixinAddCmd (colconMixinRepo inv); mixinUpdateCmd] else [])
 ++ [colconBuildCmd (packageNameList inv) (extra_options (colconMixinName inv));
     colconTestCmd (packageNameList inv) (extra_options (colconMixinName inv))])%list.

(** The failure that stops a run before its first action: a required input
    that is missing (lines 63 and 70), or sourcing requested off Linux
    (lines 74-80). *)
Definition preflight (inv : Invocation) : option string :=
if negb (JS.truthy (INPUT inv "package-name"))
then Some "Input required and not supplied: package-name"
else if negb (JS.truthy (INPUT inv "vcs-repo-file-url"))
then Some "Input required and not supplied: vcs-repo-file-url"
else if JS.truthy (sourceRosBinaryInstallation inv) && negb (process_platform =? "linux")
then Some "sourcing binary installation is only available on Linux"
else None.

(** *** Traces

    A list of actions performed one after the other from a world, up to
    the first one that is rejected. *)

Definition event (a : Action) (r : World * Status) : Event :=
{| ev_action := a; ev_status := snd r; ev_world := fst r |}.

Fixpoint trace (actions : list Action) (w : World) : list Event * Outcome unit :=
match actions with
| [] => ([], Normal tt)
| a :: rest =>
    let e := event a (do_action a w) in
    match rejection a (ev_status e) with
    | Some m => ([e], Thrown m)
    | None => let (evs, o) := trace rest (ev_world e) in (e :: evs, o)
    end
end.

(** The world after a list of events that started in [w]. *)
Definition world_after (w : World) (evs : list Event) : World :=
last (map ev_world evs) w.

(** A process [s] after the events [fst r], with the error of [snd r], if
    any, caught and handed to [core.setFailed]. *)
Definition extend (s : St) (r : list Event * Outcome unit) : St :=
let w' := world_after (world s) (fst r) in
match snd r with
| Thrown m =>
    {| world := w';
       log := (log s ++ fst r
               ++ [{| ev_action := SetFailed m; ev_status := Done; ev_world := w' |}])%list;
       failure := Some m |}
| _ => {| world := w'; log := (log s ++ fst r)%list; failure := failure s |}
end.

(** The process once [run] has returned. *)
Definition settle (w : World) (r : list Event * Outcome unit) : St :=
extend (init w) r.

(** The program [p], inside the [try] of [run], performs the actions [l]. *)
Definition runs_to (p : Prog unit) (l : list Action) : Prop :=
forall s, fst (exec (try_catch p core_setFailed) s) = extend s (trace l (world s)).

Definition is_setFailed (a : Action) : bool :=
match a with
| SetFailed _ => true
| _ => false
end.

(** The events of a run that are child processes with a given script. *)
Definition runs_script (e : Event) (script : string) : Prop :=
exists title options, ev_action e = Exec title "bash" ["-c"; script] options.

Definition exit_code (e : Event) : option Z :=
match ev_status e with
| Exited code => Some code
| _ => None
end.

(** *** Partial mixin configuration (lines 162-173) *)




(** *** Before the build (lines 89-188) *)

(** The actions of the plan up to the registration of the mixin. *)
Definition before_build (inv : Invocation) : list Action :=
(assemble inv ++ installDependencies inv :: registerMixin inv)%list.

(** Line 188. *)
Definition install_bin (inv : Invocation) : Action :=
AddPath (path_join [ros2WorkspaceDir inv; "install"; "bin"]).

End Pipeline.

(** ** Notions used in the statements *)




(** The invocation [inv] with the input [name] set to [value]. *)
Definition with_input (inv : Invocation) (name value : string) : Invocation := {|
  INPUT := fun n => if n =? name then value else INPUT inv n;
  GITHUB_WORKSPACE := GITHUB_WORKSPACE inv;
  GITHUB_REPOSITORY := GITHUB_REPOSITORY inv;
  GITHUB_HEAD_REF := GITHUB_HEAD_REF inv;
  context_repo := context_repo inv;
  context_sha := context_sha inv;
  payload_pull_request := payload_pull_request inv
|}.

(** ** A reference host and sample invocations

    A POSIX machine reduced to what the pipeline's traces depend on: the
    world counts the directories named after the repository under test in
    the workspace.  Importing the aggregate manifest leaves one, the
    [find ... | xargs rm -rf] command removes them, and importing the
    here-document adds one.  The exit code of a script is a parameter. *)

Definition script_of (args : list string) : string := nth 1 args "".

Definition runner_effect (script : string) (w : nat) : nat :=
if String.prefix "curl " script then 1
else if String.prefix "find " script then 0
else if String.prefix "vcs import src/ <<" script then S w
else w.

Definition runner (platform : string) (exit_code : string -> Z) : Host := {|
  World := nat;
  process_platform := platform;
  os_homedir := "/home/runner";
  path_join := NodePath.join;
  path_resolve := NodePath.resolve "/home/runner/work/foo/foo";
  fs_existsSync := fun p => (p =? "/tmp/manifest.repos") || (p =? "ros2.repos");
  toolPath := fun tool => "/bin/" ++ tool;
  spawn := fun _ args _ w =>
    (runner_effect (script_of args) w, exit_code (script_of args));
  fs_rmRF := fun _ _ => (0, None);
  fs_mkdirP := fun _ w => (w, None)
|}.

(** A shell in which every command is installed but [undefinedcolcon]. *)
Definition healthy (script : string) : Z :=
if String.prefix "undefined" script then 127%Z else 0%Z.

(** The same shell when the package under test does not compile. *)
Definition broken_build (script : string) : Z :=
if String.prefix "colcon build" script then 2%Z else healthy script.

Definition inputs (package_name url mixin_name mixin_repo distributions name : string)
  : string :=
if name =? "package-name" then package_name
else if name =? "vcs-repo-file-url" then url
else if name =? "colcon-mixin-name" then mixin_name
else if name =? "colcon-mixin-repository" then mixin_repo
else if name =? "source-ros-binary-installation" then distributions
else "".

Definition invocation (INPUT : string -> string) (head_ref : option string) : Invocation := {|
  INPUT := INPUT;
  GITHUB_WORKSPACE := "/home/runner/work/foo/foo";
  GITHUB_REPOSITORY := "acme/foo";
  GITHUB_HEAD_REF := head_ref;
  context_repo := {| Repo.owner := "acme"; Repo.repo := "foo" |};
  context_sha := "0123abc";
  payload_pull_request := None
|}.

(** Linux with a healthy shell, and macOS. *)
Definition linux : Host := runner "linux" healthy.
Definition darwin : Host := runner "darwin" healthy.

(** Linux when the package under test does not compile. *)
Definition broken : Host := runner "linux" broken_build.

(** Windows with a healthy shell. *)
Definition windows : Host := runner "win32" healthy.

(** The scenario of the specification: package [foo], a local manifest,
    head ref [pr-123]. *)
Definition scenario : Invocation :=
invocation (inputs "foo" "/tmp/manifest.repos" "" "" "") (Some "pr-123").



(** A binary installation of one distribution is sourced. *)
Definition sourcing_eloquent : Invocation :=
invocation (inputs "foo" "https://example.com/ros2.repos" "" "" "eloquent") None.

(** A mixin name with its mixin repository. *)
Definition mixin_both : Invocation :=
invocation
  (inputs "foo" "https://example.com/ros2.repos" "asan"
     "https://example.com/mixins/index.yaml" "")
  None.

(** No manifest is given. *)
Definition no_manifest : Invocation :=
invocation (inputs "foo" "" "" "" "") None.

(** A binary installation is to be sourced, and no package is named. *)
Definition sourcing_without_package : Invocation :=
invocation (inputs "" "https://example.com/ros2.repos" "" "" "eloquent") None.



(** A world of the reference host. *)
Definition directories (platform : string) (exit_code : string -> Z) (n : nat)
  : @World (runner platform exit_code) := n.

(** Events of the scenario on Linux: the target imported, the dependencies
    installed, the build and the tests passed. *)
Definition target_imported : @Event linux :=
{| ev_action := @importTarget linux scenario; ev_status := Exited 0; ev_world := directories "linux" healthy 1 |}.

Definition dependencies_installed : @Event linux :=
{| ev_action := @installDependencies linux scenario; ev_status := Exited 0; ev_world := directories "linux" healthy 1 |}.

Definition build_passed : @Event linux :=
{| ev_action := @build linux scenario; ev_status := Exited 0; ev_world := directories "linux" healthy 1 |}.

Definition tests_passed : @Event linux :=
{| ev_action := @test linux scenario; ev_status := Exited 0; ev_world := directories "linux" healthy 1 |}.

(** The build of the scenario when the package does not compile. *)
Definition build_failed : @Event broken :=
{| ev_action := @build broken scenario;
   ev_status := Exited 2; ev_world := directories "linux" broken_build 1 |}.

(** The build with the mixin [asan] passed. *)
Definition mixin_build_passed : @Event linux :=
{| ev_action := @build linux mixin_both; ev_status := Exited 0; ev_world := directories "linux" healthy 1 |}.

(** * Proofs *)

(** ** Strings *)

Lemma append_assoc (a b c : string) : (a ++ b) ++ c = a ++ b ++ c.
Proof. induction a as [|x a IH]; cbn; [reflexivity|rewrite IH; reflexivity]. Qed.

Lemma append_nil_r (a : string) : a ++ "" = a.
Proof. induction a as [|x a IH]; cbn; [reflexivity|rewrite IH; reflexivity]. Qed.

Lemma append_inv_head (p a b : string) : p ++ a = p ++ b -> a = b.
Proof.
  induction p as [|x p IH]; cbn; intros H; [exact H|].
  injection H as H. exact (IH H).
Qed.

Lemma source_prefix_from (l : list string) (acc : string) :
  fold_left
    (fun commandPrefix rosDistribution =>
       commandPrefix ++ "source /opt/ros/" ++ rosDistribution ++ "/setup.sh && ")
    l acc
  = acc ++ source_prefix l.
Proof.
  unfold source_prefix. revert acc.
  induction l as [|d l IH]; intros acc; cbn [fold_left].
  - rewrite append_nil_r. reflexivity.
  - rewrite IH. rewrite (IH ("" ++ _)). cbn [append]. rewrite append_assoc. reflexivity.
Qed.

Lemma source_prefix_cons d l :
  source_prefix (d :: l) = "source /opt/ros/" ++ d ++ "/setup.sh && " ++ source_prefix l.
Proof.
  unfold source_prefix at 1. cbn [fold_left]. rewrite source_prefix_from.
  cbn [append]. rewrite !append_assoc. reflexivity.
Qed.

(** ** Paths *)

Lemma split_by_pieces sep s :
  Forall (fun piece => forall c, In c (list_ascii_of_string piece) -> sep c = false)
         (JS.split_by sep s).
Proof.
  induction s as [|c s IH]; cbn [JS.split_by].
  - constructor; [intros c []|constructor].
  - destruct (sep c) eqn:Hc.
    + constructor; [intros x []|exact IH].
    + destruct (JS.split_by sep s) as [|h t].
      * constructor; [|constructor]. intros x [<-|[]]. exact Hc.
      * inversion IH as [|? ? Hh Ht]; subst. constructor; [|exact Ht].
        intros x [<-|Hx]; [exact Hc|exact (Hh x Hx)].
Qed.

Lemma split_by_piece sep s :
  (forall c, In c (list_ascii_of_string s) -> sep c = false) ->
  JS.split_by sep s = [s].
Proof.
  induction s as [|c s IH]; intros H; cbn [JS.split_by]; [reflexivity|].
  rewrite (H c (or_introl eq_refl)), IH; [reflexivity|].
  intros x Hx. apply H. right. exact Hx.
Qed.

Lemma split_by_app sep s c t :
  (forall x, In x (list_ascii_of_string s) -> sep x = false) -> sep c = true ->
  JS.split_by sep (s ++ String c t) = s :: JS.split_by sep t.
Proof.
  intros Hs Hc. induction s as [|x s IH]; cbn [append JS.split_by].
  - rewrite Hc. reflexivity.
  - rewrite (Hs x (or_introl eq_refl)), IH; [reflexivity|].
    intros y Hy. apply Hs. right. exact Hy.
Qed.

Lemma segments_join segs :
  segs <> [] -> Forall (fun s => NodePath.no_slash s) segs ->
  NodePath.segments (JS.join "/" segs) = segs.
Proof.
  unfold NodePath.segments, JS.join.
  induction segs as [|s segs IH]; intros Hne Hall; [contradiction|].
  inversion Hall as [|? ? Hs Hrest]; subst.
  destruct segs as [|s' segs].
  - apply split_by_piece. exact Hs.
  - change (String.concat "/" (s :: s' :: segs))
      with (s ++ String "/" (String.concat "/" (s' :: segs))).
    rewrite split_by_app; [|exact Hs|reflexivity].
    rewrite IH; [reflexivity|discriminate|exact Hrest].
Qed.

Lemma normalize_onto_proper stack segs :
  Forall NodePath.proper_segment stack ->
  Forall (fun s => NodePath.no_slash s) segs ->
  Forall NodePath.proper_segment (NodePath.normalize_onto false stack segs).
Proof.
  revert stack. induction segs as [|s segs IH]; intros stack Hstack Hsegs;
    cbn [NodePath.normalize_onto].
  - apply Forall_rev. exact Hstack.
  - inversion Hsegs as [|? ? Hs Hrest]; subst.
    destruct (String.eqb_spec s "") as [->|Hempty]; cbn [orb]; [apply IH; assumption|].
    destruct (String.eqb_spec s ".") as [->|Hdot]; [apply IH; assumption|].
    destruct (String.eqb_spec s "..") as [->|Hdots].
    + destruct stack as [|top below]; [apply IH; assumption|].
      inversion Hstack; subst.
      destruct (top =? ".."); apply IH; assumption.
    + apply IH; [|exact Hrest]. constructor; [|exact Hstack].
      repeat split; assumption.
Qed.

Lemma normalize_onto_fixed stack segs :
  Forall NodePath.proper_segment segs ->
  NodePath.normalize_onto false stack segs = (rev stack ++ segs)%list.
Proof.
  revert stack. induction segs as [|s segs IH]; intros stack Hsegs;
    cbn [NodePath.normalize_onto].
  - rewrite app_nil_r. reflexivity.
  - inversion Hsegs as [|? ? (Hempty & Hdot & Hdots & _) Hrest]; subst.
    apply String.eqb_neq in Hempty, Hdot, Hdots. rewrite Hempty, Hdot, Hdots. cbn [orb].
    rewrite IH; [|exact Hrest]. cbn [rev]. rewrite <- app_assoc. reflexivity.
Qed.

(** [path.resolve] returns an absolute path in normal form. *)
Lemma resolve_proper cwd p :
  exists segs,
    NodePath.resolve cwd p = NodePath.render segs /\
    Forall NodePath.proper_segment segs.
Proof.
  unfold NodePath.resolve. eexists. split; [reflexivity|].
  apply normalize_onto_proper; [constructor|]. apply split_by_pieces.
Qed.

Lemma segments_render segs :
  Forall NodePath.proper_segment segs ->
  NodePath.normalize_onto false [] (NodePath.segments (NodePath.render segs)) = segs.
Proof.
  intros Hsegs.
  change (NodePath.segments (NodePath.render segs))
    with ("" :: NodePath.segments (JS.join "/" segs)).
  change (NodePath.normalize_onto false [] ("" :: NodePath.segments (JS.join "/" segs)))
    with (NodePath.normalize_onto false [] (NodePath.segments (JS.join "/" segs))).
  destruct segs as [|s segs]; [reflexivity|].
  rewrite segments_join; [|discriminate|].
  - rewrite normalize_onto_fixed; [reflexivity|exact Hsegs].
  - eapply Forall_impl; [|exact Hsegs]. intros x (_ & _ & _ & H). exact H.
Qed.

(** An absolute path in normal form resolves to itself from every working
    directory. *)
Lemma resolve_fixed cwd segs :
  Forall NodePath.proper_segment segs ->
  NodePath.resolve cwd (NodePath.render segs) = NodePath.render segs.
Proof.
  intros Hsegs. unfold NodePath.resolve.
  change (NodePath.is_absolute (NodePath.render segs)) with true. cbv iota.
  rewrite segments_render; [reflexivity|exact Hsegs].
Qed.

Section Facts.

Context {host : Host}.

(** ** The run as a trace of its plan *)

Lemma last_cons {A} (l : list A) : forall x d, last (x :: l) d = last l x.
Proof.
  induction l as [|y l IH]; intros x d; [reflexivity|].
  change (last (x :: y :: l) d) with (last (y :: l) d).
  rewrite (IH y d), (IH y x). reflexivity.
Qed.

Lemma world_after_cons w e evs : world_after w (e :: evs) = world_after (ev_world e) evs.
Proof. unfold world_after. cbn [map]. apply last_cons. Qed.

Lemma trace_cons a l w :
  trace (a :: l) w =
  match rejection a (snd (do_action a w)) with
  | Some m => ([event a (do_action a w)], Thrown m)
  | None =>
      (event a (do_action a w) :: fst (trace l (fst (do_action a w))),
       snd (trace l (fst (do_action a w))))
  end.
Proof.
  cbn [trace event ev_status ev_world].
  destruct (rejection a (snd (do_action a w))); [reflexivity|].
  destruct (trace l (fst (do_action a w))); reflexivity.
Qed.

Lemma extend_record s a st w' r :
  is_setFailed a = false ->
  extend (record s a st w') r =
  extend s ({| ev_action := a; ev_status := st; ev_world := w' |} :: fst r, snd r).
Proof.
  intros Ha. unfold extend. cbn [fst snd world log failure record].
  rewrite world_after_cons. cbn [ev_world].
  assert (Hf : match a with SetFailed m => Some m | _ => failure s end = failure s)
    by (destruct a; try reflexivity; discriminate Ha).
  rewrite Hf.
  destruct (snd r); rewrite <- app_assoc; reflexivity.
Qed.

Lemma runs_to_attempt a (k : Status -> Prog unit) l :
  is_setFailed a = false ->
  (forall st, runs_to (k st) l) ->
  runs_to (bind (attempt a) k) (a :: l).
Proof.
  intros Ha Hk s. rewrite trace_cons.
  cbn [attempt bind try_catch exec].
  destruct (do_action a (world s)) as [w' st]. cbn [fst snd].
  destruct (rejection a st) as [m|].
  - cbn [bind try_catch core_setFailed exec do_action fst].
    unfold extend, record. cbn [fst snd world log failure event].
    rewrite world_after_cons. cbn [world_after map last ev_world].
    rewrite <- app_assoc. reflexivity.
  - cbn [bind]. rewrite (Hk st). apply extend_record; exact Ha.
Qed.

Lemma runs_to_assoc {A B} (p : Prog A) (f : A -> Prog B) (g : B -> Prog unit) l :
  runs_to (bind p (fun x => bind (f x) g)) l ->
  runs_to (bind (bind p f) g) l.
Proof.
  intros H s. rewrite <- (H s). clear H. revert s.
  induction p as [a|m| |a k IH]; intros s; cbn [bind try_catch exec]; try reflexivity.
  destruct (do_action a (world s)). apply IH.
Qed.

Lemma runs_to_pure : runs_to (Pure tt) [].
Proof.
  intros s. destruct s. unfold extend. cbn. rewrite app_nil_r. reflexivity.
Qed.

Lemma runs_to_bash commandLine commandPrefix options log_message (k : Z -> Prog unit) l :
  (forall code, runs_to (k code) l) ->
  runs_to (bind (execBashCommand commandLine commandPrefix options log_message) k)
          (bash_action commandLine commandPrefix options log_message :: l).
Proof.
  intros Hk. unfold execBashCommand, ToolRunner_exec.
  apply runs_to_assoc. apply runs_to_attempt; [reflexivity|].
  intros st. cbn [bind]. apply Hk.
Qed.

Lemma runs_to_rmRF p (k : unit -> Prog unit) l :
  runs_to (k tt) l -> runs_to (bind (io_rmRF p) k) (RmRF p :: l).
Proof.
  intros Hk. unfold io_rmRF. apply runs_to_assoc.
  apply runs_to_attempt; [reflexivity|]. intros st. exact Hk.
Qed.

Lemma runs_to_mkdirP p (k : unit -> Prog unit) l :
  runs_to (k tt) l -> runs_to (bind (io_mkdirP p) k) (MkdirP p :: l).
Proof.
  intros Hk. unfold io_mkdirP. apply runs_to_assoc.
  apply runs_to_attempt; [reflexivity|]. intros st. exact Hk.
Qed.

Lemma runs_to_addPath p (k : unit -> Prog unit) l :
  runs_to (k tt) l -> runs_to (bind (core_addPath p) k) (AddPath p :: l).
Proof.
  intros Hk s. rewrite trace_cons.
  cbn [core_addPath bind try_catch exec do_action rejection fst snd].
  rewrite (Hk _). apply extend_record. reflexivity.
Qed.

Lemma main_trace inv w :
  main inv w =
  match preflight inv with
  | Some m => settle w ([], Thrown m)
  | None => settle w (trace (plan inv) w)
  end.
Proof.
  unfold main, run, preflight, core_getInput.
  cbn [andb negb].
  destruct (JS.truthy (INPUT inv "package-name")) eqn:Hpkg; cbn [negb bind try_catch]; [|reflexivity].
  destruct (JS.truthy (INPUT inv "vcs-repo-file-url")) eqn:Hurl; cbn [negb bind try_catch]; [|reflexivity].
  change (JS.trim (INPUT inv "source-ros-binary-installation")) with (sourceRosBinaryInstallation inv).
  match goal with
  | |- context [bind (if _ then _ else Pure "") ?k] =>
      assert (Hbody : forall prefix, prefix = commandPrefix inv -> runs_to (k prefix) (plan inv))
  end.
  { intros prefix ->.
    unfold plan, assemble, build_and_verify, reset, registerMixin.
    change (JS.truthy (colconMixinName inv) && JS.truthy (colconMixinRepo inv))
      with (JS.truthy (JS.trim (INPUT inv "colcon-mixin-name"))
            && JS.truthy (JS.trim (INPUT inv "colcon-mixin-repository"))).
    destruct (JS.truthy (JS.trim (INPUT inv "colcon-mixin-name"))
              && JS.truthy (JS.trim (INPUT inv "colcon-mixin-repository"))).
    all: destruct (negb (process_platform =? "win32")).
    all: cbn [app bind].
    all: repeat first
      [ apply runs_to_bash; intros _
      | apply runs_to_rmRF
      | apply runs_to_mkdirP
      | apply runs_to_addPath
      | apply runs_to_pure
      | match goal with
        | |- runs_to (bind (bind _ _) _) _ => apply runs_to_assoc; cbn [bind]
        end ].
  }
  destruct (JS.truthy (sourceRosBinaryInstallation inv)) eqn:Hsrc; cbn [andb].
  - destruct (process_platform =? "linux") eqn:Hlinux; cbn [negb bind try_catch].
    + apply Hbody. unfold commandPrefix. rewrite Hsrc. reflexivity.
    + reflexivity.
  - apply Hbody. unfold commandPrefix. rewrite Hsrc. reflexivity.
Qed.

(** ** Traces *)

Lemma trace_outcome l w :
  snd (trace l w) = Normal tt \/ exists m, snd (trace l w) = Thrown m.
Proof.
  revert w; induction l as [|a l IH]; intros w; [left; reflexivity|].
  rewrite trace_cons.
  destruct (rejection a (snd (do_action a w))) as [m|]; cbn [snd].
  - right; exists m; reflexivity.
  - apply IH.
Qed.

Lemma trace_app l1 l2 w :
  trace (l1 ++ l2)%list w =
  match snd (trace l1 w) with
  | Normal _ =>
      ((fst (trace l1 w) ++ fst (trace l2 (world_after w (fst (trace l1 w)))))%list,
       snd (trace l2 (world_after w (fst (trace l1 w)))))
  | _ => trace l1 w
  end.
Proof.
  revert w; induction l1 as [|a l1 IH]; intros w.
  - cbn [app trace fst snd world_after map last]. destruct (trace l2 w); reflexivity.
  - rewrite <- app_comm_cons, !trace_cons.
    destruct (rejection a (snd (do_action a w))) as [m|]; cbn [fst snd]; [reflexivity|].
    rewrite IH.
    destruct (trace_outcome l1 (fst (do_action a w))) as [E|[m E]]; rewrite E; cbn [fst snd].
    + rewrite world_after_cons. reflexivity.
    + rewrite E. reflexivity.
Qed.

Lemma trace_in_plan l w e : In e (fst (trace l w)) -> In (ev_action e) l.
Proof.
  revert w; induction l as [|a l IH]; intros w; [intros []|].
  rewrite trace_cons.
  destruct (rejection a (snd (do_action a w))); cbn [fst In].
  - intros [<-|[]]. left; reflexivity.
  - intros [<-|H]; [left; reflexivity|right; eapply IH; exact H].
Qed.

Lemma trace_rejected l w e m :
  In e (fst (trace l w)) -> rejection (ev_action e) (ev_status e) = Some m ->
  snd (trace l w) = Thrown m.
Proof.
  revert w; induction l as [|a l IH]; intros w; [intros []|].
  rewrite trace_cons.
  destruct (rejection a (snd (do_action a w))) as [m'|] eqn:R; cbn [fst snd In].
  - intros [<-|[]]. cbn [event ev_action ev_status]. congruence.
  - intros [<-|H]; [cbn [event ev_action ev_status]; congruence|].
    apply IH; exact H.
Qed.

Lemma trace_normal l w :
  snd (trace l w) = Normal tt ->
  map ev_action (fst (trace l w)) = l /\
  Forall (fun e => rejection (ev_action e) (ev_status e) = None) (fst (trace l w)).
Proof.
  revert w; induction l as [|a l IH]; intros w.
  - intros _. split; [reflexivity|constructor].
  - rewrite trace_cons.
    destruct (rejection a (snd (do_action a w))) as [m'|] eqn:R; cbn [fst snd]; [discriminate|].
    intros H. destruct (IH _ H) as [IH1 IH2]. split.
    + cbn [map event ev_action]. rewrite IH1. reflexivity.
    + constructor; [exact R|exact IH2].
Qed.

(** An action that occurs once in a plan: the event that performs it. *)
Lemma trace_locate pre a post w e :
  ~ In a pre -> ~ In a post ->
  In e (fst (trace (pre ++ a :: post)%list w)) -> ev_action e = a ->
  snd (trace pre w) = Normal tt /\
  e = event a (do_action a (world_after w (fst (trace pre w)))) /\
  trace (pre ++ a :: post)%list w =
    match rejection a (ev_status e) with
    | Some m => ((fst (trace pre w) ++ [e])%list, Thrown m)
    | None =>
        ((fst (trace pre w) ++ e :: fst (trace post (ev_world e)))%list,
         snd (trace post (ev_world e)))
    end.
Proof.
  intros Hpre Hpost. rewrite trace_app, trace_cons.
  destruct (trace_outcome pre w) as [E|[m E]]; rewrite E.
  - set (w1 := world_after w (fst (trace pre w))).
    intros Hin Ha.
    assert (He : e = event a (do_action a w1)).
    { destruct (rejection a (snd (do_action a w1))); cbn [fst] in Hin;
        apply in_app_or in Hin; destruct Hin as [Hin|Hin].
      - exfalso. apply Hpre. rewrite <- Ha. eapply trace_in_plan; exact Hin.
      - destruct Hin as [<-|[]]. reflexivity.
      - exfalso. apply Hpre. rewrite <- Ha. eapply trace_in_plan; exact Hin.
      - destruct Hin as [<-|Hin]; [reflexivity|].
        exfalso. apply Hpost. rewrite <- Ha. eapply trace_in_plan; exact Hin. }
    split; [reflexivity|]. split; [exact He|].
    subst e. cbn [event ev_status ev_world].
    destruct (rejection a (snd (do_action a w1))); reflexivity.
  - intros Hin Ha. exfalso. apply Hpre. rewrite <- Ha. eapply trace_in_plan; exact Hin.
Qed.

(** The last action of a list that ended normally. *)
Lemma trace_snoc_normal pre b w :
  snd (trace (pre ++ [b])%list w) = Normal tt ->
  snd (trace pre w) = Normal tt /\
  rejection b (snd (do_action b (world_after w (fst (trace pre w))))) = None /\
  fst (trace (pre ++ [b])%list w) =
    (fst (trace pre w) ++ [event b (do_action b (world_after w (fst (trace pre w))))])%list.
Proof.
  rewrite trace_app, trace_cons.
  destruct (trace_outcome pre w) as [E|[m E]]; rewrite E; cbn [fst snd].
  - destruct (rejection b _); cbn [fst snd trace]; [discriminate|].
    intros _. repeat split.
  - rewrite E. discriminate.
Qed.

(** ** The process after [run] *)

Lemma log_settle w r :
  log (settle w r) =
  (fst r ++ match snd r with
            | Thrown m =>
                [{| ev_action := SetFailed m; ev_status := Done;
                    ev_world := world_after w (fst r) |}]
            | _ => []
            end)%list.
Proof.
  unfold settle, extend. cbn [init world log].
  destruct (snd r); cbn [log app]; rewrite ?app_nil_r; reflexivity.
Qed.

Lemma failure_settle w r :
  failure (settle w r) = match snd r with Thrown m => Some m | _ => None end.
Proof. unfold settle, extend. destruct (snd r); reflexivity. Qed.

(** An event of the log is an event of the plan's trace, or the final
    [core.setFailed]. *)
Lemma main_log_in inv w e :
  In e (log (main inv w)) ->
  (preflight inv = None /\ In e (fst (trace (plan inv) w))) \/
  (exists m w', e = {| ev_action := SetFailed m; ev_status := Done; ev_world := w' |}).
Proof.
  rewrite main_trace.
  destruct (preflight inv) as [m|]; rewrite log_settle; cbn [fst snd app In].
  - intros [<-|[]]. right. eexists _, _. reflexivity.
  - intros H. apply in_app_or in H. destruct H as [H|H].
    + left. split; [reflexivity|exact H].
    + right. destruct (snd (trace (plan inv) w)) as [u| |m].
      * destruct H.
      * destruct H.
      * destruct H as [<-|[]]. eexists _, _. reflexivity.
Qed.

Lemma main_plan inv w :
  preflight inv = None -> main inv w = settle w (trace (plan inv) w).
Proof. intros H. rewrite main_trace, H. reflexivity. Qed.

(** ** The commands are pairwise distinct *)

Lemma commandPrefix_head inv :
  commandPrefix inv = "" \/ exists r, commandPrefix inv = String "s" r.
Proof.
  unfold commandPrefix. destruct (JS.truthy _); [|left; reflexivity].
  destruct (JS.split_space _) as [|d l]; [left; reflexivity|].
  right. rewrite source_prefix_cons. cbn [append]. eexists; reflexivity.
Qed.

Lemma bash_action_inv cl cl' p p' o o' :
  bash_action cl p o None = bash_action cl' p' o' None ->
  bashScript cl p = bashScript cl' p' /\ o = o'.
Proof. unfold bash_action. intros H. injection H as _ H1 H2. split; assumption. Qed.

Lemma bash_script_inv cl cl' p :
  bashScript cl (Some p) = bashScript cl' (Some p) -> cl = cl'.
Proof. unfold bashScript, JS.interpolate. apply append_inv_head. Qed.

Ltac unfold_commands H :=
  unfold importCmd, removeTargetCmd, importTargetCmd, pruneCmd, rosdepInstallCmd,
    rosdepInstall, mixinAddCmd, mixinUpdateCmd, colconBuildCmd, colconTestCmd,
    colconLcovResultCmd in H.

Ltac differ :=
  let H := fresh "H" in
  intro H;
  unfold rosdepUpdate, importManifest, removeTarget, importTarget, prune,
    installDependencies, mixinAdd, mixinUpdate, build, test, coverage in H;
  first
    [ discriminate H
    | unfold bash_action in H; discriminate H
    | apply bash_action_inv in H;
      let Hs := fresh "Hs" in
      let Ho := fresh "Ho" in
      destruct H as [Hs Ho];
      first
        [ discriminate Ho
        | unfold options in Ho; discriminate Ho
        | apply bash_script_inv in Hs; unfold_commands Hs; cbn in Hs; discriminate Hs ] ].

(** [a] is none of the actions of [l], a list made of the actions of the
    plan. *)
Ltac absent :=
  let Hin := fresh "Hin" in
  intro Hin;
  unfold assemble, reset, build_and_verify, registerMixin in Hin;
  repeat match type of Hin with
         | context [if ?c then _ else _] => destruct c
         end;
  cbn [app In] in Hin;
  repeat (destruct Hin as [Hin|Hin]; [revert Hin; differ|]);
  exact Hin.

Lemma plan_around_test inv :
  plan inv =
  (((assemble inv ++ installDependencies inv :: registerMixin inv
     ++ [AddPath (path_join [ros2WorkspaceDir inv; "install"; "bin"])])
    ++ [build inv]) ++ test inv :: [coverage inv])%list.
Proof.
  unfold plan, build_and_verify.
  rewrite <- !app_assoc. cbn [app]. rewrite <- !app_assoc. reflexivity.
Qed.

Lemma plan_around_importTarget inv :
  plan inv =
  (((reset inv ++ [importManifest inv]) ++ [removeTarget inv])
   ++ importTarget inv :: (prune inv :: installDependencies inv :: build_and_verify inv))%list.
Proof.
  unfold plan, assemble. rewrite <- !app_assoc. reflexivity.
Qed.

Lemma test_once_before inv :
  ~ In (test inv)
      ((assemble inv ++ installDependencies inv :: registerMixin inv
        ++ [AddPath (path_join [ros2WorkspaceDir inv; "install"; "bin"])])
       ++ [build inv]).
Proof. absent. Qed.

Lemma test_once_after inv : ~ In (test inv) [coverage inv].
Proof. absent. Qed.

Lemma importTarget_once_before inv :
  ~ In (importTarget inv) ((reset inv ++ [importManifest inv]) ++ [removeTarget inv]).
Proof. absent. Qed.

Lemma importTarget_once_after inv :
  ~ In (importTarget inv)
      (prune inv :: installDependencies inv :: build_and_verify inv).
Proof. absent. Qed.

Lemma installDependencies_once_after inv :
  ~ In (installDependencies inv) (build_and_verify inv).
Proof. absent. Qed.

(** ** Locating a command in the log *)

Lemma truthy_true s : JS.truthy s = true <-> s <> "".
Proof.
  unfold JS.truthy. rewrite negb_true_iff. apply String.eqb_neq.
Qed.


Lemma exit_code_status e code : exit_code e = Some code <-> ev_status e = Exited code.
Proof.
  unfold exit_code. destruct (ev_status e); split; intros H; try discriminate;
    injection H as ->; reflexivity.
Qed.

(** A command of the plan whose return code is not ignored is accepted
    exactly when it exits with 0. *)
Lemma strict_bash_accepted cl p o lm w :
  exec_ignoreReturnCode o = false ->
  rejection (bash_action cl p o lm) (snd (do_action (bash_action cl p o lm) w)) = None ->
  snd (do_action (bash_action cl p o lm) w) = Exited 0.
Proof.
  intros Ho. unfold bash_action. cbn [do_action rejection].
  destruct (spawn _ _ _ w) as [w' code]. cbn [snd]. rewrite Ho, orb_false_r.
  destruct (Z.eqb_spec code 0) as [->|]; [reflexivity|discriminate].
Qed.

Lemma strict_bash_rejected cl p o lm code :
  exec_ignoreReturnCode o = false -> code <> 0%Z ->
  rejection (bash_action cl p o lm) (Exited code) =
  Some ("The process '" ++ toolPath "bash" ++ "' failed with exit code " ++ JS.number code).
Proof.
  intros Ho Hc. unfold bash_action. cbn [rejection]. rewrite Ho, orb_false_r.
  destruct (Z.eqb_spec code 0) as [->|]; [contradiction|reflexivity].
Qed.

(** An action that occurs once in the plan, found in the log. *)
Lemma main_locate inv w pre a post e :
  plan inv = (pre ++ a :: post)%list ->
  ~ In a pre -> ~ In a post -> is_setFailed a = false ->
  In e (log (main inv w)) -> ev_action e = a ->
  preflight inv = None /\
  snd (trace pre w) = Normal tt /\
  e = event a (do_action a (world_after w (fst (trace pre w)))) /\
  trace (plan inv) w =
    match rejection a (ev_status e) with
    | Some m => ((fst (trace pre w) ++ [e])%list, Thrown m)
    | None =>
        ((fst (trace pre w) ++ e :: fst (trace post (ev_world e)))%list,
         snd (trace post (ev_world e)))
    end.
Proof.
  intros Hplan Hpre Hpost Ha Hin He.
  destruct (main_log_in _ _ _ Hin) as [[Hpf Hin']|[m [w' ->]]].
  - split; [exact Hpf|]. rewrite Hplan in *.
    exact (trace_locate _ _ _ _ _ Hpre Hpost Hin' He).
  - cbn [ev_action] in He. subst a. discriminate Ha.
Qed.

(** A rejected action fails the run with its message. *)
Lemma main_rejected inv w e m :
  In e (log (main inv w)) -> rejection (ev_action e) (ev_status e) = Some m ->
  failure (main inv w) = Some m.
Proof.
  intros Hin Hr.
  destruct (main_log_in _ _ _ Hin) as [[Hpf Hin']|[m' [w' ->]]].
  - rewrite (main_plan _ _ Hpf), failure_settle.
    rewrite (trace_rejected _ _ _ _ Hin' Hr). reflexivity.
  - discriminate Hr.
Qed.

(** The exit code of the coverage command is ignored. *)
Lemma coverage_accepted inv w :
  rejection (coverage inv) (snd (do_action (coverage inv) w)) = None.
Proof.
  unfold coverage, bash_action. cbn [do_action rejection].
  destruct (spawn _ _ _ w) as [w' code].
  cbn [snd exec_ignoreReturnCode ignoreReturnCode]. rewrite orb_true_r. reflexivity.
Qed.

Lemma trace_coverage inv w :
  trace [coverage inv] w = ([event (coverage inv) (do_action (coverage inv) w)], Normal tt).
Proof. rewrite trace_cons, coverage_accepted. reflexivity. Qed.

(** The test command has run: everything before it was accepted, the build
    last, and the run ends with the coverage command unless the tests
    fail. *)
Lemma test_reached inv w e :
  In e (log (main inv w)) -> ev_action e = test inv ->
  exists before e_b,
    ev_action e_b = build inv /\ exit_code e_b = Some 0%Z /\
    preflight inv = None /\
    trace (plan inv) w =
      match rejection (test inv) (ev_status e) with
      | Some m => ((before ++ e_b :: [e])%list, Thrown m)
      | None =>
          ((before ++ e_b :: e :: [event (coverage inv) (do_action (coverage inv) (ev_world e))])%list,
           Normal tt)
      end.
Proof.
  intros Hin He.
  destruct (main_locate inv w _ _ _ e (plan_around_test inv)
              (test_once_before inv) (test_once_after inv) eq_refl Hin He)
    as (Hpf & Hpre & _ & Htrace).
  apply trace_snoc_normal in Hpre. destruct Hpre as (_ & Hacc & Hevs).
  set (pre := (assemble inv ++ installDependencies inv :: registerMixin inv
               ++ [AddPath (path_join [ros2WorkspaceDir inv; "install"; "bin"])])%list) in *.
  set (w0 := world_after w (fst (trace pre w))) in *.
  exists (fst (trace pre w)), (event (build inv) (do_action (build inv) w0)).
  split; [reflexivity|]. split.
  { apply exit_code_status. cbn [event ev_status]. unfold build in *.
    apply strict_bash_accepted; [reflexivity|exact Hacc]. }
  split; [exact Hpf|].
  rewrite Htrace, Hevs. rewrite <- !app_assoc. cbn [app].
  destruct (rejection (test inv) (ev_status e)); [reflexivity|].
  rewrite trace_coverage. reflexivity.
Qed.

(** ** Build, test and coverage *)

Lemma log_of_plan inv w :
  preflight inv = None ->
  log (main inv w) =
  (fst (trace (plan inv) w)
   ++ match snd (trace (plan inv) w) with
      | Thrown m =>
          [{| ev_action := SetFailed m; ev_status := Done;
              ev_world := world_after w (fst (trace (plan inv) w)) |}]
      | _ => []
      end)%list.
Proof. intros H. rewrite (main_plan _ _ H). apply log_settle. Qed.

Lemma failure_of_plan inv w :
  preflight inv = None ->
  failure (main inv w) =
  match snd (trace (plan inv) w) with Thrown m => Some m | _ => None end.
Proof. intros H. rewrite (main_plan _ _ H). apply failure_settle. Qed.

Lemma test_strict inv : exists cl p o,
  test inv = bash_action cl p o None /\ exec_ignoreReturnCode o = false.
Proof. unfold test. eexists _, _, _. split; reflexivity. Qed.

Lemma build_strict inv : exists cl p o,
  build inv = bash_action cl p o None /\ exec_ignoreReturnCode o = false.
Proof. unfold build. eexists _, _, _. split; reflexivity. Qed.

(** C5. The build is restricted to the packages under test and what they
    depend on ([--packages-up-to]), the test to the packages under test
    ([--packages-select]) with coverage of the Python tests switched on; the
    test command is run only after the build command has exited with 0; and
    a build or a test that exits with another code fails the run. *)
Theorem build_then_test inv w e :
  In e (log (main inv w)) ->
  build inv =
    bash_action
      ("colcon build --event-handlers console_cohesion+ --symlink-install --packages-up-to "
       ++ JS.join " " (packageNameList inv) ++ " "
       ++ JS.join " " (extra_options (colconMixinName inv)))
      (Some (commandPrefix inv)) (Some (options inv)) None /\
  test inv =
    bash_action
      ("colcon test --event-handlers console_cohesion+ --pytest-args --cov=. --cov-report=xml --return-code-on-test-failure --packages-select "
       ++ JS.join " " (packageNameList inv) ++ " "
       ++ JS.join " " (extra_options (colconMixinName inv)))
      (Some (commandPrefix inv)) (Some (options inv)) None /\
  (ev_action e = test inv ->
   exists before e_b after,
     log (main inv w) = (before ++ e_b :: e :: after)%list /\
     ev_action e_b = build inv /\ exit_code e_b = Some 0%Z) /\
  (ev_action e = build inv \/ ev_action e = test inv ->
   forall code, exit_code e = Some code -> code <> 0%Z ->
   failure (main inv w) =
   Some ("The process '" ++ toolPath "bash" ++ "' failed with exit code "
         ++ JS.number code)).
Proof.
  intros Hin. split; [reflexivity|]. split; [reflexivity|]. split.
  - intros He.
    destruct (test_reached inv w e Hin He) as (before & e_b & Hb & Hcode & Hpf & Htrace).
    exists before, e_b.
    rewrite (log_of_plan _ _ Hpf), Htrace.
    destruct (rejection (test inv) (ev_status e)) as [m|]; cbn [fst snd].
    + eexists. rewrite <- app_assoc. cbn [app]. repeat split; [exact Hb|exact Hcode].
    + eexists. rewrite app_nil_r. repeat split; [exact Hb|exact Hcode].
  - intros He code Hcode Hnz. apply exit_code_status in Hcode.
    apply (main_rejected inv w e); [exact Hin|]. rewrite Hcode.
    destruct He as [-> | ->];
      [destruct (build_strict inv) as (cl & p & o & -> & Ho)
      |destruct (test_strict inv) as (cl & p & o & -> & Ho)];
      apply strict_bash_rejected; assumption.
Qed.

(** C7. When the build and the test commands have both exited with 0, the
    run ends with the coverage command and succeeds, whatever the exit code
    of that command. *)
Theorem coverage_failure_is_tolerated inv w e_b e_t :
  In e_b (log (main inv w)) -> ev_action e_b = build inv -> exit_code e_b = Some 0%Z ->
  In e_t (log (main inv w)) -> ev_action e_t = test inv -> exit_code e_t = Some 0%Z ->
  failure (main inv w) = None /\
  exists before e_c,
    log (main inv w) = (before ++ [e_c])%list /\
    ev_action e_c = coverage inv /\
    e_c = event (coverage inv) (do_action (coverage inv) (ev_world e_t)).
Proof.
  intros _ _ _ Hin He Hcode. apply exit_code_status in Hcode.
  destruct (test_reached inv w e_t Hin He) as (before & e & _ & _ & Hpf & Htrace).
  assert (Hacc : rejection (test inv) (ev_status e_t) = None).
  { rewrite Hcode. unfold test, bash_action. reflexivity. }
  rewrite Hacc in Htrace.
  rewrite (failure_of_plan _ _ Hpf), (log_of_plan _ _ Hpf), Htrace. cbn [fst snd].
  split; [reflexivity|].
  exists (before ++ [e; e_t])%list, (event (coverage inv) (do_action (coverage inv) (ev_world e_t))).
  rewrite app_nil_r, <- app_assoc. cbn [app]. repeat split.
Qed.

(** A run that did not fail performed its whole plan, the coverage command
    last. *)
Lemma success_ends_with_coverage inv w :
  failure (main inv w) = None ->
  exists before e_c,
    log (main inv w) = (before ++ [e_c])%list /\ ev_action e_c = coverage inv.
Proof.
  intros Hf. rewrite main_trace in *.
  destruct (preflight inv) as [m|] eqn:Hpf.
  { rewrite failure_settle in Hf. discriminate Hf. }
  rewrite failure_settle in Hf. rewrite log_settle.
  destruct (trace_outcome (plan inv) w) as [E|[m E]]; rewrite E in *; [|discriminate Hf].
  destruct (trace_normal _ _ E) as [Hmap _].
  set (evs := fst (trace (plan inv) w)) in *.
  rewrite plan_around_test in Hmap.
  change (test inv :: [coverage inv]) with ([test inv] ++ [coverage inv])%list in Hmap.
  rewrite app_assoc in Hmap.
  apply map_eq_app in Hmap. destruct Hmap as (l1 & l2 & Hl & _ & H2).
  destruct l2 as [|e_c [|x l2]]; try discriminate H2.
  injection H2 as H2.
  exists l1, e_c. rewrite app_nil_r. split; [exact Hl|exact H2].
Qed.

(** C10. A call of [execBashCommand] without [commandPrefix] executes the
    script made of the word undefined followed by the command line; the
    coverage step is such a call, and a run that succeeds has executed
    [undefinedcolcon lcov-result --packages-select ...] last. *)
Theorem undefined_prefix_is_interpolated commandLine options log_message s inv w :
  (exists title status,
     log (fst (exec (execBashCommand commandLine None options log_message) s)) =
     (log s ++ [{| ev_action := Exec title "bash" ["-c"; ("undefined" ++ commandLine)%string] options;
                   ev_status := status;
                   ev_world := world (fst (exec (execBashCommand commandLine None options log_message) s)) |}])%list) /\
  (failure (main inv w) = None ->
   exists before e_c,
     log (main inv w) = (before ++ [e_c])%list /\
     runs_script e_c
       ("undefinedcolcon lcov-result --packages-select "
        ++ JS.join " " (packageNameList inv))).
Proof.
  split.
  - unfold execBashCommand, ToolRunner_exec, attempt. cbn [bind exec].
    destruct (do_action _ (world s)) as [w' st].
    eexists _, st.
    destruct (rejection _ st); cbn [bind exec fst log world record]; reflexivity.
  - intros Hf. destruct (success_ends_with_coverage inv w Hf) as (before & e_c & Hlog & Ha).
    exists before, e_c. split; [exact Hlog|].
    unfold runs_script. rewrite Ha. unfold coverage, bash_action. eexists _, _. reflexivity.
Qed.

(** C8, as amended.  When a binary installation is to be sourced and the
    platform is not Linux, a run that was given its two required inputs does
    nothing but
    report the failure: the log holds the call of [core.setFailed] with the
    message of line 77 and no command. *)
Theorem sourcing_off_linux_fails inv w :
  INPUT inv "package-name" <> "" -> INPUT inv "vcs-repo-file-url" <> "" ->
  sourceRosBinaryInstallation inv <> "" -> process_platform <> "linux" ->
  main inv w =
  {| world := w;
     log := [{| ev_action := SetFailed "sourcing binary installation is only available on Linux";
                ev_status := Done; ev_world := w |}];
     failure := Some "sourcing binary installation is only available on Linux" |}.
Proof.
  intros Hpkg Hurl Hsrc Hplat. rewrite main_trace. unfold preflight.
  apply truthy_true in Hpkg, Hurl, Hsrc. apply String.eqb_neq in Hplat.
  rewrite Hpkg, Hurl, Hsrc, Hplat. reflexivity.
Qed.

(** ** The target injection *)

Lemma trace_nonempty a l w :
  exists e rest, fst (trace (a :: l) w) = e :: rest /\ ev_action e = a.
Proof.
  rewrite trace_cons. destruct (rejection a _); cbn [fst]; eexists _, _; split; reflexivity.
Qed.

(** X19. The target injection is two commands.  The first, given no
    working directory, is [find] over the workspace for the directories named
    after the repository, piped to [xargs rm -rf].  The second runs in the
    workspace, and only right after the first has exited with 0: [vcs import]
    fed a here-document with one entry, the repository under test, of type
    git, at the URL of the pull request's head repository when there is one
    and of [GITHUB_REPOSITORY] otherwise, at the head ref when there is a
    non-empty one and at the commit otherwise.  A non-zero exit code of the
    import fails the run. *)
Theorem target_injection_stage inv w e :
  In e (log (main inv w)) -> ev_action e = importTarget inv ->
  (exists title,
   ev_action e =
    Exec title "bash"
      ["-c";
       commandPrefix inv
       ++ "vcs import src/ << EOF" ++ JS.LF
       ++ "repositories:" ++ JS.LF
       ++ "  " ++ Repo.repo (context_repo inv) ++ ":" ++ JS.LF
       ++ "    type: git" ++ JS.LF
       ++ "    url: " ++ JS.DQ ++ "https://github.com/"
       ++ match payload_pull_request inv with
          | Some head_repo_full_name => head_repo_full_name
          | None => GITHUB_REPOSITORY inv
          end
       ++ ".git" ++ JS.DQ ++ JS.LF
       ++ "    version: " ++ JS.DQ
       ++ match GITHUB_HEAD_REF inv with
          | Some ref => if ref =? "" then context_sha inv else ref
          | None => context_sha inv
          end
       ++ JS.DQ ++ JS.LF
       ++ "EOF"]
      (Some {| cwd := Some (ros2WorkspaceDir inv); ignoreReturnCode := false |})) /\
  (exists before e_rm after title,
     log (main inv w) = (before ++ e_rm :: e :: after)%list /\
     ev_action e_rm =
       Exec title "bash"
         ["-c";
          commandPrefix inv
          ++ "find " ++ JS.DQ ++ ros2WorkspaceDir inv ++ JS.DQ
          ++ " -type d -and -name " ++ JS.DQ ++ Repo.repo (context_repo inv) ++ JS.DQ
          ++ " | xargs rm -rf"]
         None /\
     exit_code e_rm = Some 0%Z) /\
  (forall code, exit_code e = Some code -> code <> 0%Z ->
   failure (main inv w) =
   Some ("The process '" ++ toolPath "bash" ++ "' failed with exit code "
         ++ JS.number code)).
Proof.
  intros Hin He. split.
  { rewrite He. unfold importTarget, bash_action, bashScript, JS.interpolate,
      importTargetCmd, repoFullName, commitRef, JS.or_else, JS.truthy.
    eexists. repeat f_equal.
    destruct (GITHUB_HEAD_REF inv) as [ref|]; [destruct (ref =? "")|]; reflexivity. }
  destruct (main_locate inv w _ _ _ e (plan_around_importTarget inv)
              (importTarget_once_before inv) (importTarget_once_after inv)
              eq_refl Hin He) as (Hpf & Hpre & _ & Htrace).
  apply trace_snoc_normal in Hpre. destruct Hpre as (_ & Hacc & Hevs).
  set (pre := (reset inv ++ [importManifest inv])%list) in *.
  set (e_rm := event (removeTarget inv)
                 (do_action (removeTarget inv) (world_after w (fst (trace pre w))))) in *.
  assert (Hzero : exit_code e_rm = Some 0%Z).
  { apply exit_code_status. subst e_rm. cbn [event ev_status]. unfold removeTarget in *.
    apply strict_bash_accepted; [reflexivity|exact Hacc]. }
  split.
  - exists (fst (trace pre w)), e_rm.
    rewrite (log_of_plan _ _ Hpf), Htrace, Hevs.
    destruct (rejection (importTarget inv) (ev_status e)); cbn [fst snd];
      eexists; eexists; rewrite <- !app_assoc; cbn [app];
      (split; [reflexivity|]);
      (split; [|exact Hzero]);
      subst e_rm; cbn [event ev_action];
      unfold removeTarget, bash_action, bashScript, JS.interpolate, removeTargetCmd;
      rewrite !append_assoc; reflexivity.
  - intros code Hcode Hnz. apply exit_code_status in Hcode.
    apply (main_rejected inv w e); [exact Hin|]. rewrite Hcode, He.
    unfold importTarget. apply strict_bash_rejected; [reflexivity|exact Hnz].
Qed.

(** ** The installation of the system dependencies *)

Lemma plan_around_installDependencies inv :
  plan inv =
  (((reset inv ++ [importManifest inv; removeTarget inv; importTarget inv])
    ++ [prune inv])
   ++ installDependencies inv :: build_and_verify inv)%list.
Proof.
  unfold plan, assemble. rewrite <- !app_assoc. reflexivity.
Qed.

Lemma installDependencies_once_after_prune inv :
  ~ In (installDependencies inv)
      ((reset inv ++ [importManifest inv; removeTarget inv; importTarget inv])
       ++ [prune inv]).
Proof. absent. Qed.

(** X18. The system dependencies are installed by one command, run in the
    workspace right after the pruning has exited with 0: [rosdep install]
    followed by [|| true].  That is all the tolerance there is: the call does
    not set [ignoreReturnCode], so a non-zero exit code of the bash process
    fails the run like that of any other command; after exit code 0 the next
    action is the registration of the mixin when both mixin inputs are
    given, and [core.addPath] otherwise. *)
Theorem dependency_installation_stage inv w e :
  In e (log (main inv w)) -> ev_action e = installDependencies inv ->
  (exists title,
   ev_action e =
    Exec title "bash"
      ["-c";
       commandPrefix inv
       ++ "DEBIAN_FRONTEND=noninteractive RTI_NC_LICENSE_ACCEPTED=yes rosdep install -r --from-paths src --ignore-src --rosdistro eloquent -y || true"]
      (Some {| cwd := Some (ros2WorkspaceDir inv); ignoreReturnCode := false |})) /\
  (exists before e_p after,
     log (main inv w) = (before ++ e_p :: e :: after)%list /\
     ev_action e_p = prune inv /\ exit_code e_p = Some 0%Z) /\
  (forall code, exit_code e = Some code -> code <> 0%Z ->
   failure (main inv w) =
   Some ("The process '" ++ toolPath "bash" ++ "' failed with exit code "
         ++ JS.number code)) /\
  (exit_code e = Some 0%Z ->
   exists before e_next after,
     log (main inv w) = (before ++ e :: e_next :: after)%list /\
     ev_action e_next =
       if JS.truthy (colconMixinName inv) && JS.truthy (colconMixinRepo inv)
       then mixinAdd inv
       else AddPath (path_join [ros2WorkspaceDir inv; "install"; "bin"])).
Proof.
  intros Hin He. split.
  { rewrite He. unfold installDependencies, bash_action, bashScript, JS.interpolate,
      rosdepInstallCmd, rosdepInstall.
    eexists. reflexivity. }
  destruct (main_locate inv w _ _ _ e (plan_around_installDependencies inv)
              (installDependencies_once_after_prune inv)
              (installDependencies_once_after inv)
              eq_refl Hin He) as (Hpf & Hpre & _ & Htrace).
  apply trace_snoc_normal in Hpre. destruct Hpre as (_ & Hacc & Hevs).
  set (pre := (reset inv ++ [importManifest inv; removeTarget inv; importTarget inv])%list)
    in *.
  set (e_p := event (prune inv)
                (do_action (prune inv) (world_after w (fst (trace pre w))))) in *.
  assert (Hzero : exit_code e_p = Some 0%Z).
  { apply exit_code_status. subst e_p. cbn [event ev_status]. unfold prune in *.
    apply strict_bash_accepted; [reflexivity|exact Hacc]. }
  split; [|split].
  - exists (fst (trace pre w)), e_p.
    rewrite (log_of_plan _ _ Hpf), Htrace, Hevs.
    destruct (rejection (installDependencies inv) (ev_status e)); cbn [fst snd];
      eexists; rewrite <- !app_assoc; cbn [app];
      (split; [reflexivity|]); (split; [reflexivity|exact Hzero]).
  - intros code Hcode Hnz. apply exit_code_status in Hcode.
    apply (main_rejected inv w e); [exact Hin|]. rewrite Hcode, He.
    unfold installDependencies. apply strict_bash_rejected; [reflexivity|exact Hnz].
  - intros Hcode. apply exit_code_status in Hcode.
    assert (Hnext : exists e_next rest,
              fst (trace (build_and_verify inv) (ev_world e)) = e_next :: rest /\
              ev_action e_next =
                if JS.truthy (colconMixinName inv) && JS.truthy (colconMixinRepo inv)
                then mixinAdd inv
                else AddPath (path_join [ros2WorkspaceDir inv; "install"; "bin"])).
    { unfold build_and_verify, registerMixin.
      destruct (JS.truthy (colconMixinName inv) && JS.truthy (colconMixinRepo inv));
        cbn [app]; apply trace_nonempty. }
    destruct Hnext as (e_next & rest & Hrest & Hnext).
    exists (fst (trace pre w) ++ [e_p])%list, e_next.
    rewrite (log_of_plan _ _ Hpf), Htrace, Hevs, Hcode.
    unfold installDependencies at 1 2. unfold bash_action at 1 2.
    cbn [rejection Z.eqb orb fst snd]. rewrite Hrest.
    eexists. rewrite <- !app_assoc. cbn [app]. split; [reflexivity|exact Hnext].
Qed.

(** ** Mixin registration *)

(** The actions of the plan: file operations, the coverage command, and
    the commands that are passed [commandPrefix]. *)
Lemma plan_actions inv a :
  In a (plan inv) ->
  (exists p, a = RmRF p \/ a = MkdirP p \/ a = AddPath p) \/
  a = coverage inv \/
  exists cl o,
    In cl (command_lines inv) /\
    a = bash_action cl (Some (commandPrefix inv)) o None /\
    exec_ignoreReturnCode o = false.
Proof.
  unfold plan, assemble, reset, build_and_verify, registerMixin, command_lines.
  destruct (negb (process_platform =? "win32"));
    destruct (JS.truthy (colconMixinName inv) && JS.truthy (colconMixinRepo inv));
    cbn [app In]; intros H;
    repeat (destruct H as [<-|H];
            [first [ left; eexists; (left + (right; left) + (right; right)); reflexivity
                   | right; left; reflexivity
                   | right; right; eexists _, _;
                     split; [|split; [reflexivity|reflexivity]]; cbn [In]; tauto ]
            |]);
    destruct H.
Qed.

Lemma runs_script_bash e cl p o lm script :
  ev_action e = bash_action cl p o lm -> runs_script e script -> script = bashScript cl p.
Proof.
  unfold runs_script, bash_action. intros -> (t & o' & H). injection H as _ H _.
  symmetry; exact H.
Qed.






(** ** The manifest locator *)

(** C6. A locator that names an existing file resolves to [file://]
    followed by [path.resolve] of it, any other locator to itself.  Where
    [path.resolve] is the POSIX one, the path is absolute and in normal
    form, and names the same file from every working directory. *)
Theorem resolveVcsRepoFileUrl_spec (vcsRepoFileUrl : string) :
  (fs_existsSync vcsRepoFileUrl = true ->
   resolveVcsRepoFileUrl vcsRepoFileUrl = "file://" ++ path_resolve vcsRepoFileUrl /\
   forall cwd,
     path_resolve vcsRepoFileUrl = NodePath.resolve cwd vcsRepoFileUrl ->
     exists segs,
       resolveVcsRepoFileUrl vcsRepoFileUrl = "file://" ++ NodePath.render segs /\
       Forall NodePath.proper_segment segs /\
       forall cwd', NodePath.resolve cwd' (NodePath.render segs) = NodePath.render segs) /\
  (fs_existsSync vcsRepoFileUrl = false ->
   resolveVcsRepoFileUrl vcsRepoFileUrl = vcsRepoFileUrl).
Proof.
  unfold resolveVcsRepoFileUrl. split; intros Hexists; rewrite Hexists; [|reflexivity].
  split; [reflexivity|]. intros cwd Hposix.
  destruct (resolve_proper cwd vcsRepoFileUrl) as (segs & Hres & Hsegs).
  exists segs. rewrite Hposix, Hres. split; [reflexivity|]. split; [exact Hsegs|].
  intros cwd'. apply resolve_fixed. exact Hsegs.
Qed.

(** ** Further properties of the trace *)

Lemma trace_rejected_last l w e m :
  In e (fst (trace l w)) -> rejection (ev_action e) (ev_status e) = Some m ->
  exists before, fst (trace l w) = (before ++ [e])%list.
Proof.
  revert w; induction l as [|a l IH]; intros w; [intros []|].
  rewrite trace_cons.
  destruct (rejection a (snd (do_action a w))) as [m'|] eqn:R; cbn [fst In].
  - intros [<-|[]] _. exists []. reflexivity.
  - intros [<-|H] Hr.
    + cbn [event ev_action ev_status] in Hr. congruence.
    + destruct (IH _ H Hr) as [before Hb]. exists (event a (do_action a w) :: before).
      rewrite Hb. reflexivity.
Qed.

(** X1. Every command of a run is the coverage command, with the word
    undefined in front of it, or one of the command lines of the run with
    the prefix in front of it. *)
Theorem commands_are_prefixed inv w e script :
  In e (log (main inv w)) -> runs_script e script ->
  script = "undefined" ++ colconLcovResultCmd (packageNameList inv) \/
  exists cl, In cl (command_lines inv) /\ script = commandPrefix inv ++ cl.
Proof.
  intros Hin Hrun.
  destruct (main_log_in _ _ _ Hin) as [[_ Hin']|[m [w' ->]]].
  - apply trace_in_plan in Hin'. apply plan_actions in Hin'.
    destruct Hin' as [[p Hp]|[Hcov|(cl & o & Hin' & Ha & _)]].
    + destruct Hrun as (t & o & Hrun). rewrite Hrun in Hp.
      destruct Hp as [Hp|[Hp|Hp]]; discriminate Hp.
    + left. exact (runs_script_bash _ _ _ _ _ _ Hcov Hrun).
    + right. exists cl. split; [exact Hin'|].
      exact (runs_script_bash _ _ _ _ _ _ Ha Hrun).
  - destruct Hrun as (t & o & Hrun). discriminate Hrun.
Qed.

(** X2. The prefix sources the setup script of each distribution of the
    list, in the order of the list. *)
Theorem commandPrefix_sources inv :
  commandPrefix inv =
  if JS.truthy (sourceRosBinaryInstallation inv)
  then String.concat ""
         (map (fun rosDistribution => "source /opt/ros/" ++ rosDistribution ++ "/setup.sh && ")
              (JS.split_space (sourceRosBinaryInstallation inv)))
  else "".
Proof.
  unfold commandPrefix. destruct (JS.truthy _); [|reflexivity].
  induction (JS.split_space _) as [|d l IH]; [reflexivity|].
  rewrite source_prefix_cons, IH. cbn [map].
  destruct l as [|d' l].
  - cbn [map String.concat]. rewrite append_nil_r. reflexivity.
  - change (String.concat "" (?x :: map ?f (d' :: l)))
      with (x ++ "" ++ String.concat "" (map f (d' :: l))).
    cbn [append]. rewrite !append_assoc. reflexivity.
Qed.

(** X3. The first action that is rejected is the last one performed: the run
    stops there and reports its message. *)
Theorem first_failure_aborts inv w e m :
  In e (log (main inv w)) -> rejection (ev_action e) (ev_status e) = Some m ->
  failure (main inv w) = Some m /\
  exists before w',
    log (main inv w) =
    (before ++ [e; {| ev_action := SetFailed m; ev_status := Done; ev_world := w' |}])%list.
Proof.
  intros Hin Hr. split; [exact (main_rejected _ _ _ _ Hin Hr)|].
  destruct (main_log_in _ _ _ Hin) as [[Hpf Hin']|[m' [w' ->]]]; [|discriminate Hr].
  rewrite (log_of_plan _ _ Hpf), (trace_rejected _ _ _ _ Hin' Hr).
  destruct (trace_rejected_last _ _ _ _ Hin' Hr) as [before Hb].
  exists before. eexists. rewrite Hb at 1. rewrite <- app_assoc. reflexivity.
Qed.

(** X4. A run that does not fail has performed the actions of its plan, all
    of them and in order. *)
Theorem success_performs_the_plan inv w :
  failure (main inv w) = None -> map ev_action (log (main inv w)) = plan inv.
Proof.
  intros Hf. rewrite main_trace in *.
  destruct (preflight inv) as [m|]; rewrite failure_settle in Hf; [discriminate Hf|].
  rewrite log_settle.
  destruct (trace_outcome (plan inv) w) as [E|[m E]]; rewrite E in *; [|discriminate Hf].
  rewrite app_nil_r. exact (proj1 (trace_normal _ _ E)).
Qed.

(** X5. A run without its package name fails before its first command. *)
Theorem missing_package_name_fails inv w :
  INPUT inv "package-name" = "" ->
  main inv w =
  {| world := w;
     log := [{| ev_action := SetFailed "Input required and not supplied: package-name";
                ev_status := Done; ev_world := w |}];
     failure := Some "Input required and not supplied: package-name" |}.
Proof.
  intros H. rewrite main_trace. unfold preflight. rewrite H. reflexivity.
Qed.

(** ** The reset of the workspace *)

Lemma plan_around_importManifest inv :
  plan inv =
  (reset inv
   ++ importManifest inv
      :: (removeTarget inv :: importTarget inv :: prune inv
          :: installDependencies inv :: build_and_verify inv))%list.
Proof.
  unfold plan, assemble. rewrite <- !app_assoc. reflexivity.
Qed.

Lemma importManifest_once_before inv : ~ In (importManifest inv) (reset inv).
Proof. absent. Qed.

Lemma importManifest_once_after inv :
  ~ In (importManifest inv)
      (removeTarget inv :: importTarget inv :: prune inv
       :: installDependencies inv :: build_and_verify inv).
Proof. absent. Qed.

(** X7. The manifest is imported into a workspace that was reset: the three
    actions before the import are the removal of the colcon configuration,
    the removal of the workspace and the creation of its [src] directory,
    and none of them was rejected. *)
Theorem workspace_is_reset_before_import inv w e :
  In e (log (main inv w)) -> ev_action e = importManifest inv ->
  exists before e1 e2 e3 after,
    log (main inv w) = (before ++ e1 :: e2 :: e3 :: e :: after)%list /\
    ev_action e1 = RmRF (path_join [os_homedir; ".colcon"]) /\
    ev_action e2 = RmRF (ros2WorkspaceDir inv) /\
    ev_action e3 = MkdirP (ros2WorkspaceDir inv ++ "/src") /\
    Forall (fun e' => rejection (ev_action e') (ev_status e') = None) [e1; e2; e3].
Proof.
  intros Hin He.
  destruct (main_locate inv w _ _ _ e (plan_around_importManifest inv)
              (importManifest_once_before inv) (importManifest_once_after inv)
              eq_refl Hin He) as (Hpf & Hpre & _ & Htrace).
  destruct (trace_normal _ _ Hpre) as [Hmap Hacc].
  set (evs := fst (trace (reset inv) w)) in *.
  unfold reset in Hmap. apply map_eq_app in Hmap.
  destruct Hmap as (before & l & Hevs & _ & Hl).
  destruct l as [|e1 [|e2 [|e3 [|x l]]]]; try discriminate Hl.
  injection Hl as H1 H2 H3.
  exists before, e1, e2, e3.
  rewrite (log_of_plan _ _ Hpf), Htrace, Hevs.
  rewrite Hevs in Hacc. apply Forall_app in Hacc. destruct Hacc as [_ Hacc].
  destruct (rejection (importManifest inv) (ev_status e)); cbn [fst snd];
    eexists; rewrite <- !app_assoc; cbn [app];
    (split; [reflexivity|]); repeat (split; [assumption|]); exact Hacc.
Qed.

(** ** The pruning stage *)

Lemma plan_around_prune inv :
  plan inv =
  (((reset inv ++ [importManifest inv; removeTarget inv]) ++ [importTarget inv])
   ++ prune inv :: (installDependencies inv :: build_and_verify inv))%list.
Proof.
  unfold plan, assemble. rewrite <- !app_assoc. reflexivity.
Qed.

Lemma prune_once_before inv :
  ~ In (prune inv)
      ((reset inv ++ [importManifest inv; removeTarget inv]) ++ [importTarget inv]).
Proof. absent. Qed.

Lemma prune_once_after inv :
  ~ In (prune inv) (installDependencies inv :: build_and_verify inv).
Proof. absent. Qed.

(** X6. The pruning stage is one command, run in the workspace right after
    the target has been imported with exit code 0: the lines of
    [colcon list -p] that [diff] does not find in those of
    [colcon list --packages-up-to] for the packages under test, handed to
    [xargs rm -rf].  A non-zero exit code fails the run. *)
Theorem pruning_stage inv w e :
  In e (log (main inv w)) -> ev_action e = prune inv ->
  (exists title,
   ev_action e =
    Exec title "bash"
      ["-c";
       commandPrefix inv
       ++ "diff --new-line-format=" ++ JS.DQ ++ JS.DQ
       ++ " --unchanged-line-format=" ++ JS.DQ ++ JS.DQ
       ++ " <(colcon list -p) <(colcon list --packages-up-to "
       ++ JS.join " " (packageNameList inv) ++ " -p) | xargs rm -rf"]
      (Some {| cwd := Some (ros2WorkspaceDir inv); ignoreReturnCode := false |})) /\
  (exists before e_i after,
     log (main inv w) = (before ++ e_i :: e :: after)%list /\
     ev_action e_i = importTarget inv /\ exit_code e_i = Some 0%Z) /\
  (forall code, exit_code e = Some code -> code <> 0%Z ->
   failure (main inv w) =
   Some ("The process '" ++ toolPath "bash" ++ "' failed with exit code "
         ++ JS.number code)).
Proof.
  intros Hin He. split.
  { rewrite He. unfold prune, bash_action, bashScript, JS.interpolate, pruneCmd.
    eexists. reflexivity. }
  destruct (main_locate inv w _ _ _ e (plan_around_prune inv)
              (prune_once_before inv) (prune_once_after inv) eq_refl Hin He)
    as (Hpf & Hpre & _ & Htrace).
  apply trace_snoc_normal in Hpre. destruct Hpre as (_ & Hacc & Hevs).
  set (pre := (reset inv ++ [importManifest inv; removeTarget inv])%list) in *.
  set (e_i := event (importTarget inv)
                (do_action (importTarget inv) (world_after w (fst (trace pre w))))) in *.
  assert (Hzero : exit_code e_i = Some 0%Z).
  { apply exit_code_status. subst e_i. cbn [event ev_status]. unfold importTarget in *.
    apply strict_bash_accepted; [reflexivity|exact Hacc]. }
  split.
  - exists (fst (trace pre w)), e_i.
    rewrite (log_of_plan _ _ Hpf), Htrace, Hevs.
    destruct (rejection (prune inv) (ev_status e)); cbn [fst snd];
      eexists; rewrite <- !app_assoc; cbn [app];
      (split; [reflexivity|]); (split; [reflexivity|exact Hzero]).
  - intros code Hcode Hnz. apply exit_code_status in Hcode.
    apply (main_rejected inv w e); [exact Hin|]. rewrite Hcode, He.
    unfold prune. apply strict_bash_rejected; [reflexivity|exact Hnz].
Qed.


(** ** [rosdep update] *)

Lemma coverage_script_is_not inv c rest :
  c <> "u"%char ->
  bashScript (colconLcovResultCmd (packageNameList inv)) None
  <> commandPrefix inv ++ String c rest.
Proof.
  intros Hc. unfold bashScript, JS.interpolate.
  destruct (commandPrefix_head inv) as [-> | [r ->]]; cbn; intros H.
  - injection H as H _. apply Hc. symmetry; exact H.
  - discriminate H.
Qed.

Lemma rosdep_update_not_run inv w e :
  ~ In "rosdep update" (command_lines inv) ->
  In e (log (main inv w)) ->
  ~ runs_script e (commandPrefix inv ++ "rosdep update").
Proof.
  intros Hcl Hin Hrun.
  destruct (main_log_in _ _ _ Hin) as [[_ Hin']|[m [w' ->]]].
  - apply trace_in_plan in Hin'. apply plan_actions in Hin'.
    destruct Hin' as [[p Hp]|[Hcov|(cl & o & Hin' & Ha & _)]].
    + destruct Hrun as (t & o & Hrun). rewrite Hrun in Hp.
      destruct Hp as [Hp|[Hp|Hp]]; discriminate Hp.
    + apply (runs_script_bash _ _ _ _ _ _ Hcov) in Hrun.
      refine (coverage_script_is_not inv "r"%char _ _ (eq_sym Hrun)). discriminate.
    + apply (runs_script_bash _ _ _ _ _ _ Ha) in Hrun.
      unfold bashScript, JS.interpolate in Hrun. apply append_inv_head in Hrun.
      apply Hcl. rewrite Hrun. exact Hin'.
  - destruct Hrun as (t & o & Hrun). discriminate Hrun.
Qed.

(** X9. On Windows no command of the run is [rosdep update]; on every other
    platform it is the first action of a run that passes the checks of the
    inputs. *)
Theorem rosdep_update_only_off_windows inv w :
  (process_platform = "win32" ->
   forall e, In e (log (main inv w)) ->
             ~ runs_script e (commandPrefix inv ++ "rosdep update")) /\
  (process_platform <> "win32" -> preflight inv = None ->
   exists e rest,
     log (main inv w) = e :: rest /\
     runs_script e (commandPrefix inv ++ "rosdep update") /\
     ev_action e = rosdepUpdate inv).
Proof.
  split.
  - intros Hwin e Hin. apply (rosdep_update_not_run inv w); [|exact Hin].
    unfold command_lines. rewrite Hwin. cbn [String.eqb Ascii.eqb Bool.eqb negb app].
    intros H.
    destruct (JS.truthy (colconMixinName inv) && JS.truthy (colconMixinRepo inv));
      cbn [app In] in H;
      repeat (destruct H as [H|H]; [unfold_commands H; cbn in H; discriminate H|]);
      exact H.
  - intros Hwin Hpf. apply String.eqb_neq in Hwin.
    rewrite (log_of_plan _ _ Hpf).
    unfold plan, assemble, reset. rewrite Hwin. cbn [negb app].
    rewrite trace_cons.
    destruct (rejection (rosdepUpdate inv) _); cbn [fst app];
      eexists _, _; (split; [reflexivity|]); cbn [event ev_action];
      (split; [|reflexivity]); unfold runs_script, rosdepUpdate, bash_action;
      eexists _, _; reflexivity.
Qed.

(** ** Exit codes *)

(** An event of a trace is the action performed in some world. *)
Lemma trace_event_shape l w e :
  In e (fst (trace l w)) ->
  exists w0, e = event (ev_action e) (do_action (ev_action e) w0).
Proof.
  revert w; induction l as [|a l IH]; intros w; [intros []|].
  rewrite trace_cons.
  destruct (rejection a (snd (do_action a w))); cbn [fst In].
  - intros [<-|[]]. exists w. reflexivity.
  - intros [<-|H]; [exists w; reflexivity|]. exact (IH _ H).
Qed.

(** A command of a trace that was accepted, and whose return code is not
    ignored, has exited with 0. *)
Lemma accepted_exit_zero l w e cl p o :
  In e (fst (trace l w)) ->
  ev_action e = bash_action cl p o None -> exec_ignoreReturnCode o = false ->
  rejection (ev_action e) (ev_status e) = None ->
  exit_code e = Some 0%Z.
Proof.
  intros Hin Ha Ho Hacc. destruct (trace_event_shape _ _ _ Hin) as [w0 Hs].
  assert (Hst : ev_status e = snd (do_action (ev_action e) w0)).
  { rewrite Hs at 1. reflexivity. }
  apply exit_code_status. rewrite Hst in *. rewrite Ha in *.
  apply strict_bash_accepted; assumption.
Qed.

(** X10. The coverage command is the only one whose non-zero exit code
    does not fail the run: any other command that exits with a non-zero
    code makes the run fail with the message of the tool runner for that
    code. *)
Theorem only_coverage_may_fail inv w e code :
  In e (log (main inv w)) -> exit_code e = Some code -> code <> 0%Z ->
  ev_action e = coverage inv \/
  failure (main inv w) =
  Some ("The process '" ++ toolPath "bash" ++ "' failed with exit code " ++ JS.number code).
Proof.
  intros Hin Hcode Hnz. apply exit_code_status in Hcode.
  destruct (main_log_in _ _ _ Hin) as [[_ Hin']|[m [w' ->]]]; [|discriminate Hcode].
  destruct (trace_event_shape _ _ _ Hin') as [w0 Hshape].
  apply trace_in_plan in Hin'. apply plan_actions in Hin'.
  destruct Hin' as [[p Hp]|[Hcov|(cl & o & _ & Ha & Ho)]].
  - exfalso. rewrite Hshape in Hcode. cbn [event ev_status] in Hcode.
    destruct Hp as [Hp|[Hp|Hp]]; rewrite Hp in Hcode; cbn [do_action] in Hcode.
    + destruct (fs_rmRF p w0) as [? [?|]]; discriminate Hcode.
    + destruct (fs_mkdirP p w0) as [? [?|]]; discriminate Hcode.
    + discriminate Hcode.
  - left. exact Hcov.
  - right. apply (main_rejected inv w e); [exact Hin|]. rewrite Hcode, Ha.
    apply strict_bash_rejected; assumption.
Qed.

(** ** The shape of a run *)

Lemma trace_prefix l w :
  map ev_action (fst (trace l w)) = firstn (length (fst (trace l w))) l.
Proof.
  revert w; induction l as [|a l IH]; intros w; [reflexivity|].
  rewrite trace_cons.
  destruct (rejection a (snd (do_action a w))); cbn [fst map length firstn event ev_action].
  - reflexivity.
  - rewrite IH at 1. reflexivity.
Qed.

(** X11. Whatever the host does, the actions of a run are an initial
    segment of its plan, followed by one call of [core.setFailed] exactly
    when the run fails: no action is skipped, repeated or reordered, and
    nothing is done after the failure is reported. *)
Theorem run_performs_a_prefix_of_its_plan inv w :
  exists n,
    n <= length (plan inv) /\
    map ev_action (log (main inv w)) =
    (firstn n (plan inv)
     ++ match failure (main inv w) with
        | Some m => [SetFailed m]
        | None => []
        end)%list.
Proof.
  rewrite main_trace.
  destruct (preflight inv) as [m|].
  - exists 0. split; [apply Nat.le_0_l|]. rewrite log_settle, failure_settle. reflexivity.
  - exists (length (fst (trace (plan inv) w))).
    rewrite log_settle, failure_settle, map_app, trace_prefix. split.
    + rewrite <- (length_map ev_action), trace_prefix, length_firstn. apply Nat.le_min_r.
    + destruct (snd (trace (plan inv) w)); reflexivity.
Qed.

(** ** The list of packages *)








(** ** The manifest is required *)

(** X13. A run with a package name and no [vcs-repo-file-url] executes no
    command: it only reports the missing input through [core.setFailed]. *)
Theorem missing_vcs_repo_file_url_fails inv w :
  INPUT inv "package-name" <> "" -> INPUT inv "vcs-repo-file-url" = "" ->
  main inv w =
  {| world := w;
     log := [{| ev_action := SetFailed "Input required and not supplied: vcs-repo-file-url";
                ev_status := Done; ev_world := w |}];
     failure := Some "Input required and not supplied: vcs-repo-file-url" |}.
Proof.
  intros Hpkg Hurl. apply truthy_true in Hpkg.
  rewrite main_trace. unfold preflight. rewrite Hpkg, Hurl. reflexivity.
Qed.

(** ** Before the build *)

Lemma plan_around_build inv :
  plan inv =
  ((before_build inv ++ [install_bin inv])
   ++ build inv :: [test inv; coverage inv])%list.
Proof.
  unfold plan, build_and_verify, before_build, install_bin.
  repeat (rewrite <- app_assoc; cbn [app]). reflexivity.
Qed.

Lemma build_once_before inv :
  ~ In (build inv) (before_build inv ++ [install_bin inv]).
Proof. unfold before_build, install_bin. absent. Qed.

Lemma build_once_after inv : ~ In (build inv) [test inv; coverage inv].
Proof. absent. Qed.

(** The log of a run that reaches the build: the events of what comes
    before it, none of them rejected, then [core.addPath], then the build. *)
Lemma build_located inv w e :
  In e (log (main inv w)) -> ev_action e = build inv ->
  let evs := fst (trace (before_build inv) w) in
  exists e_path after,
    log (main inv w) = (evs ++ e_path :: e :: after)%list /\
    map ev_action evs = before_build inv /\
    Forall (fun e' => rejection (ev_action e') (ev_status e') = None) evs /\
    ev_action e_path = install_bin inv.
Proof.
  intros Hin He.
  destruct (main_locate inv w _ _ _ e (plan_around_build inv)
              (build_once_before inv) (build_once_after inv) eq_refl Hin He)
    as (Hpf & Hpre & _ & Htrace).
  apply trace_snoc_normal in Hpre. destruct Hpre as (Hpre & _ & Hevs).
  destruct (trace_normal _ _ Hpre) as [Hmap Hacc].
  exists {| ev_action := install_bin inv; ev_status := Done;
            ev_world := world_after w (fst (trace (before_build inv) w)) |}.
  cbn zeta. rewrite (log_of_plan _ _ Hpf), Htrace, Hevs.
  destruct (rejection (build inv) (ev_status e)); cbn [fst snd];
    eexists; rewrite <- !app_assoc; cbn [app];
    (split; [reflexivity|]); (split; [exact Hmap|]); (split; [exact Hacc|reflexivity]).
Qed.

(** X14. Whenever the build runs, the action just before it is
    [core.addPath] of the [install/bin] directory of the workspace, and the
    installation of the system dependencies has run before and exited with
    0. *)
Theorem path_is_extended_before_build inv w e :
  In e (log (main inv w)) -> ev_action e = build inv ->
  exists before e_path after,
    log (main inv w) = (before ++ e_path :: e :: after)%list /\
    ev_action e_path = AddPath (path_join [ros2WorkspaceDir inv; "install"; "bin"]) /\
    (exists e_d, In e_d before /\ ev_action e_d = installDependencies inv /\
                 exit_code e_d = Some 0%Z).
Proof.
  intros Hin He.
  destruct (build_located inv w e Hin He) as (e_path & after & Hlog & Hmap & Hacc & Hpath).
  exists (fst (trace (before_build inv) w)), e_path, after.
  split; [exact Hlog|]. split; [exact Hpath|].
  assert (Hd : In (installDependencies inv) (map ev_action (fst (trace (before_build inv) w)))).
  { rewrite Hmap. unfold before_build. apply in_or_app. right. left. reflexivity. }
  apply in_map_iff in Hd. destruct Hd as (e_d & Hd & Hin_d).
  exists e_d. split; [exact Hin_d|]. split; [exact Hd|].
  rewrite Forall_forall in Hacc.
  unfold installDependencies in Hd.
  exact (accepted_exit_zero _ _ _ _ _ _ Hin_d Hd eq_refl (Hacc _ Hin_d)).
Qed.

(** X15. When both mixin inputs are given and the build runs, the three
    actions just before it are [colcon mixin add default '<repository>'],
    [colcon mixin update default], both prefixed and both exited with 0,
    and [core.addPath]; the build command line ends with [--mixin] and the
    name. *)
Theorem mixin_is_registered_before_build inv w e :
  colconMixinName inv <> "" -> colconMixinRepo inv <> "" ->
  In e (log (main inv w)) -> ev_action e = build inv ->
  runs_script e
    (commandPrefix inv
     ++ "colcon build --event-handlers console_cohesion+ --symlink-install --packages-up-to "
     ++ JS.join " " (packageNameList inv) ++ " --mixin " ++ colconMixinName inv) /\
  exists before e_add e_update e_path after,
    log (main inv w) = (before ++ e_add :: e_update :: e_path :: e :: after)%list /\
    runs_script e_add
      (commandPrefix inv ++ "colcon mixin add default '" ++ colconMixinRepo inv ++ "'") /\
    exit_code e_add = Some 0%Z /\
    runs_script e_update (commandPrefix inv ++ "colcon mixin update default") /\
    exit_code e_update = Some 0%Z /\
    ev_action e_path = AddPath (path_join [ros2WorkspaceDir inv; "install"; "bin"]).
Proof.
  intros Hname Hrepo Hin He.
  apply truthy_true in Hname. apply truthy_true in Hrepo. split.
  { unfold runs_script. rewrite He.
    unfold build, bash_action, bashScript, JS.interpolate, colconBuildCmd, extra_options.
    rewrite Hname. eexists _, _. reflexivity. }
  destruct (build_located inv w e Hin He) as (e_path & after & Hlog & Hmap & Hacc & Hpath).
  set (evs := fst (trace (before_build inv) w)) in *.
  unfold before_build, registerMixin in Hmap. rewrite Hname, Hrepo in Hmap.
  cbn [andb] in Hmap.
  change (installDependencies inv :: [mixinAdd inv; mixinUpdate inv])
    with ([installDependencies inv] ++ [mixinAdd inv; mixinUpdate inv])%list in Hmap.
  rewrite app_assoc in Hmap.
  apply map_eq_app in Hmap. destruct Hmap as (before & l & Hevs & _ & Hl).
  destruct l as [|e_add [|e_update [|x l]]]; try discriminate Hl.
  injection Hl as Hadd Hupdate.
  assert (Hin_add : In e_add evs).
  { rewrite Hevs. apply in_or_app. right. left. reflexivity. }
  assert (Hin_update : In e_update evs).
  { rewrite Hevs. apply in_or_app. right. right. left. reflexivity. }
  rewrite Forall_forall in Hacc.
  exists before, e_add, e_update, e_path, after.
  split. { rewrite Hlog, Hevs, <- app_assoc. reflexivity. }
  split. { unfold runs_script. rewrite Hadd. unfold mixinAdd, bash_action.
           eexists _, _. reflexivity. }
  split. { unfold mixinAdd in Hadd.
           exact (accepted_exit_zero _ _ _ _ _ _ Hin_add Hadd eq_refl (Hacc _ Hin_add)). }
  split. { unfold runs_script. rewrite Hupdate. unfold mixinUpdate, bash_action.
           eexists _, _. reflexivity. }
  split. { unfold mixinUpdate in Hupdate.
           exact (accepted_exit_zero _ _ _ _ _ _ Hin_update Hupdate eq_refl
                    (Hacc _ Hin_update)). }
  exact Hpath.
Qed.

(** ** Working directories *)

(** X16. Every process a run starts is [bash -c] with one script.  It runs
    in the [ros2_ws] directory of the workspace, unless it is one of four
    prefixed commands, which are given no working directory:
    [rosdep update], the removal of the target from the workspace, and the
    two mixin commands. *)
Theorem commands_run_in_the_workspace inv w e title tool args o :
  In e (log (main inv w)) -> ev_action e = Exec title tool args o ->
  tool = "bash" /\
  exists script, args = ["-c"; script] /\
  (exec_cwd o = Some (path_join [GITHUB_WORKSPACE inv; "ros2_ws"]) \/
   exec_cwd o = None /\
   exists cl,
     script = commandPrefix inv ++ cl /\
     In cl ["rosdep update";
            removeTargetCmd (ros2WorkspaceDir inv) (Repo.repo (context_repo inv));
            mixinAddCmd (colconMixinRepo inv);
            mixinUpdateCmd]).
Proof.
  intros Hin He.
  destruct (main_log_in _ _ _ Hin) as [[_ Hin']|[m [w' ->]]]; [|discriminate He].
  apply trace_in_plan in Hin'. rewrite He in Hin'.
  unfold plan, assemble, reset, build_and_verify, registerMixin in Hin'.
  destruct (negb (process_platform =? "win32"));
    destruct (JS.truthy (colconMixinName inv) && JS.truthy (colconMixinRepo inv));
    cbn [app In] in Hin';
    repeat (destruct Hin' as [Hin'|Hin'];
            [first
               [ discriminate Hin'
               | unfold rosdepUpdate, importManifest, removeTarget, importTarget, prune,
                   installDependencies, mixinAdd, mixinUpdate, build, test, coverage,
                   bash_action in Hin';
                 injection Hin' as _ <- <- <-;
                 split; [reflexivity|];
                 eexists; split; [reflexivity|];
                 first
                   [ left; reflexivity
                   | right; split; [reflexivity|];
                     eexists; split; [reflexivity|]; cbn [In]; tauto ] ]
            |]);
    destruct Hin'.
Qed.

(** ** The mixin repository without a mixin name *)

Lemma plan_with_mixin_repository inv v :
  colconMixinName inv = "" ->
  plan (with_input inv "colcon-mixin-repository" v) = plan inv.
Proof.
  intros Hname.
  unfold plan, assemble, reset, build_and_verify, registerMixin.
  change (colconMixinName (with_input inv "colcon-mixin-repository" v))
    with (colconMixinName inv).
  rewrite Hname. reflexivity.
Qed.

(** X17. Without a mixin name the input [colcon-mixin-repository] has no
    effect: whatever its value, the run is the same, action for action and
    world for world. *)
Theorem mixin_repository_is_ignored_without_name inv v w :
  colconMixinName inv = "" ->
  main (with_input inv "colcon-mixin-repository" v) w = main inv w.
Proof.
  intros Hname. rewrite !main_trace, (plan_with_mixin_repository _ _ Hname).
  reflexivity.
Qed.

End Facts.

(** * The reference host *)

(** The event at a position of a log. *)
Ltac found_at k := apply (nth_error_In _ k); vm_compute; reflexivity.

(** C2 on the code.  Sourcing [eloquent] on Linux: the run succeeds, every
    other command starts with the prefix, and the last command executed is
    [undefinedcolcon lcov-result], which does not. *)
Theorem coverage_is_not_prefixed :
  commandPrefix sourcing_eloquent = "source /opt/ros/eloquent/setup.sh && " /\
  failure (@main linux sourcing_eloquent 0) = None /\
  (exists before e_c,
     log (@main linux sourcing_eloquent 0) = (before ++ [e_c])%list /\
     runs_script e_c "undefinedcolcon lcov-result --packages-select foo" /\
     exit_code e_c = Some 127%Z) /\
  String.prefix (commandPrefix sourcing_eloquent)
    "undefinedcolcon lcov-result --packages-select foo" = false.
Proof.
  split; [reflexivity|]. split; [reflexivity|]. split; [|reflexivity].
  eexists (removelast (log (@main linux sourcing_eloquent 0))), _.
  split; [vm_compute; reflexivity|]. split; [|reflexivity].
  eexists _, _. reflexivity.
Qed.


(** C8 as it is written fails on macOS when a binary installation is to be
    sourced and [package-name] is missing: the inputs are read before the
    platform is looked at, and the run fails with the message of the missing
    input. *)
Lemma sourcing_off_linux_counterexample :
  sourceRosBinaryInstallation sourcing_without_package = "eloquent" /\
  @process_platform darwin = "darwin" /\
  @main darwin sourcing_without_package 0 =
  {| world := directories "darwin" healthy 0;
     log := [{| ev_action := SetFailed "Input required and not supplied: package-name";
                ev_status := Done; ev_world := directories "darwin" healthy 0 |}];
     failure := Some "Input required and not supplied: package-name" |} /\
  failure (@main darwin sourcing_without_package 0)
  <> Some "sourcing binary installation is only available on Linux".
Proof.
  split; [reflexivity|]. split; [reflexivity|]. split; [reflexivity|].
  vm_compute. discriminate.
Qed.

(** ** The theorems at work on the reference host *)


(** C5 in the scenario: the tests run right after a build that exited with 0;
    and when the build exits with 2 the run fails with the message of the
    tool runner. *)
Lemma build_then_test_witness :
  In tests_passed (log (@main linux scenario 5)) /\
  (exists before e_b after,
     log (@main linux scenario 5) = (before ++ e_b :: tests_passed :: after)%list /\
     ev_action e_b = @build linux scenario /\ exit_code e_b = Some 0%Z) /\
  failure (@main broken scenario 5)
  = Some "The process '/bin/bash' failed with exit code 2".
Proof.
  assert (Hin : In tests_passed (log (@main linux scenario 5))) by found_at 11.
  split; [exact Hin|]. split.
  - exact (proj1 (proj2 (proj2 (@build_then_test linux scenario 5 tests_passed Hin))) eq_refl).
  - assert (Hin' : In build_failed (log (@main broken scenario 5)))
      by found_at 10.
    refine (proj2 (proj2 (proj2
              (@build_then_test broken scenario 5 build_failed Hin')))
              (or_introl eq_refl) 2%Z eq_refl _).
    discriminate.
Defined.

(** C7 in the scenario: the build and the tests pass, the coverage command
    exits with 127 and the run succeeds. *)
Lemma coverage_failure_is_tolerated_witness :
  failure (@main linux scenario 5) = None /\
  exists before e_c,
    log (@main linux scenario 5) = (before ++ [e_c])%list /\
    ev_action e_c = @coverage linux scenario /\
    exit_code e_c = Some 127%Z.
Proof.
  assert (Hb : In build_passed (log (@main linux scenario 5))) by found_at 10.
  assert (Ht : In tests_passed (log (@main linux scenario 5))) by found_at 11.
  destruct (@coverage_failure_is_tolerated linux scenario 5 build_passed tests_passed
              Hb eq_refl eq_refl Ht eq_refl eq_refl)
    as (Hf & before & e_c & Hlog & Ha & He).
  split; [exact Hf|]. exists before, e_c. split; [exact Hlog|]. split; [exact Ha|].
  rewrite He. reflexivity.
Defined.

(** C8 on macOS: sourcing [eloquent] fails the run before its first command. *)
Lemma sourcing_off_linux_fails_witness :
  @main darwin sourcing_eloquent 0 =
  {| world := directories "darwin" healthy 0;
     log := [{| ev_action := SetFailed "sourcing binary installation is only available on Linux";
                ev_status := Done; ev_world := directories "darwin" healthy 0 |}];
     failure := Some "sourcing binary installation is only available on Linux" |}.
Proof.
  apply (@sourcing_off_linux_fails darwin sourcing_eloquent); vm_compute; discriminate.
Defined.

(** C10 in the scenario: the run succeeds and its last script is
    [undefinedcolcon lcov-result --packages-select foo]. *)
Lemma undefined_prefix_is_interpolated_witness :
  failure (@main linux scenario 5) = None /\
  exists before e_c,
    log (@main linux scenario 5) = (before ++ [e_c])%list /\
    runs_script e_c "undefinedcolcon lcov-result --packages-select foo".
Proof.
  split; [reflexivity|].
  exact (proj2 (@undefined_prefix_is_interpolated linux "" None None (@init linux 0)
                  scenario 5) eq_refl).
Defined.

(** C6 on the reference host: a relative path and an absolute path of
    existing files, and a URL. *)
Lemma resolveVcsRepoFileUrl_spec_witness :
  @resolveVcsRepoFileUrl linux "ros2.repos" = "file:///home/runner/work/foo/foo/ros2.repos" /\
  @resolveVcsRepoFileUrl linux "/tmp/manifest.repos" = "file:///tmp/manifest.repos" /\
  @resolveVcsRepoFileUrl linux "https://example.com/ros2.repos"
  = "https://example.com/ros2.repos".
Proof.
  split; [|split].
  - exact (proj1 (proj1 (@resolveVcsRepoFileUrl_spec linux "ros2.repos") eq_refl)).
  - exact (proj1 (proj1 (@resolveVcsRepoFileUrl_spec linux "/tmp/manifest.repos") eq_refl)).
  - exact (proj2 (@resolveVcsRepoFileUrl_spec linux "https://example.com/ros2.repos") eq_refl).
Defined.

(** X1 when [eloquent] is sourced: the first script is the prefix followed by
    [rosdep update]. *)
Lemma commands_are_prefixed_witness :
  exists cl,
    In cl (@command_lines linux sourcing_eloquent) /\
    "source /opt/ros/eloquent/setup.sh && rosdep update" = commandPrefix sourcing_eloquent ++ cl.
Proof.
  assert (Hin : In {| ev_action := rosdepUpdate sourcing_eloquent; ev_status := Exited 0;
                      ev_world := directories "linux" healthy 5 |}
                   (log (@main linux sourcing_eloquent 5))) by found_at 0.
  destruct (@commands_are_prefixed linux sourcing_eloquent 5 _
              "source /opt/ros/eloquent/setup.sh && rosdep update" Hin) as [H|H].
  - eexists _, _. reflexivity.
  - discriminate H.
  - exact H.
Defined.

(** X3 when the build exits with 2: the log ends with the build and the call
    of [core.setFailed]. *)
Lemma first_failure_aborts_witness :
  failure (@main broken scenario 5)
  = Some "The process '/bin/bash' failed with exit code 2" /\
  exists before w',
    log (@main broken scenario 5) =
    (before ++ [build_failed;
                {| ev_action := SetFailed "The process '/bin/bash' failed with exit code 2";
                   ev_status := Done; ev_world := w' |}])%list.
Proof.
  assert (Hin : In build_failed (log (@main broken scenario 5)))
    by found_at 10.
  exact (@first_failure_aborts broken scenario 5 build_failed _
           Hin eq_refl).
Defined.

(** X4 in the scenario. *)
Lemma success_performs_the_plan_witness :
  map ev_action (log (@main linux scenario 5)) = @plan linux scenario.
Proof. exact (@success_performs_the_plan linux scenario 5 eq_refl). Defined.

(** X5 for an invocation without package name. *)
Lemma missing_package_name_fails_witness :
  failure (@main linux (invocation (inputs "" "https://example.com/ros2.repos" "" "" "") None) 5)
  = Some "Input required and not supplied: package-name".
Proof.
  rewrite (@missing_package_name_fails linux
             (invocation (inputs "" "https://example.com/ros2.repos" "" "" "") None) 5 eq_refl).
  reflexivity.
Defined.

(** X6 in the scenario: the pruning command runs right after the import of
    the target. *)
Lemma pruning_stage_witness :
  exists before e_i after,
    log (@main linux scenario 5)
    = (before ++ e_i
       :: {| ev_action := @prune linux scenario; ev_status := Exited 0;
             ev_world := directories "linux" healthy 1 |} :: after)%list /\
    ev_action e_i = @importTarget linux scenario /\ exit_code e_i = Some 0%Z.
Proof.
  assert (Hin : In {| ev_action := @prune linux scenario; ev_status := Exited 0;
                      ev_world := directories "linux" healthy 1 |}
                   (log (@main linux scenario 5))) by found_at 7.
  exact (proj1 (proj2 (@pruning_stage linux scenario 5 _ Hin eq_refl))).
Defined.

(** X7 in the scenario. *)
Lemma workspace_is_reset_before_import_witness :
  exists before e1 e2 e3 after,
    log (@main linux scenario 5)
    = (before ++ e1 :: e2 :: e3
       :: {| ev_action := @importManifest linux scenario; ev_status := Exited 0;
             ev_world := directories "linux" healthy 1 |} :: after)%list /\
    ev_action e1 = RmRF "/home/runner/.colcon" /\
    ev_action e2 = RmRF "/home/runner/work/foo/foo/ros2_ws" /\
    ev_action e3 = MkdirP "/home/runner/work/foo/foo/ros2_ws/src".
Proof.
  assert (Hin : In {| ev_action := @importManifest linux scenario; ev_status := Exited 0;
                      ev_world := directories "linux" healthy 1 |}
                   (log (@main linux scenario 5))) by found_at 4.
  destruct (@workspace_is_reset_before_import linux scenario 5 _ Hin eq_refl)
    as (before & e1 & e2 & e3 & after & Hlog & H1 & H2 & H3 & _).
  exists before, e1, e2, e3, after.
  split; [exact Hlog|]. split; [exact H1|]. split; [exact H2|exact H3].
Defined.

(** X9 on Windows and on Linux. *)
Lemma rosdep_update_only_off_windows_witness :
  (forall e, In e (log (@main windows scenario 5)) -> ~ runs_script e "rosdep update") /\
  exists e rest,
    log (@main linux scenario 5) = e :: rest /\ runs_script e "rosdep update".
Proof.
  split.
  - exact (proj1 (@rosdep_update_only_off_windows windows scenario 5) eq_refl).
  - destruct (proj2 (@rosdep_update_only_off_windows linux scenario 5)
                ltac:(discriminate) eq_refl) as (e & rest & Hlog & Hrun & _).
    exists e, rest. split; [exact Hlog|exact Hrun].
Defined.

(** X10 when the build exits with 2. *)
Lemma only_coverage_may_fail_witness :
  ev_action build_failed = @coverage broken scenario \/
  failure (@main broken scenario 5)
  = Some "The process '/bin/bash' failed with exit code 2".
Proof.
  assert (Hin : In build_failed (log (@main broken scenario 5))) by found_at 10.
  exact (@only_coverage_may_fail broken scenario 5 build_failed 2 Hin eq_refl
           ltac:(discriminate)).
Defined.

(** X13 for an invocation without manifest. *)
Lemma missing_vcs_repo_file_url_fails_witness :
  map ev_action (log (@main linux no_manifest 5))
  = [SetFailed "Input required and not supplied: vcs-repo-file-url"].
Proof.
  exact (f_equal (fun s : @St linux => map ev_action (log s))
           (@missing_vcs_repo_file_url_fails linux no_manifest 5
              ltac:(discriminate) eq_refl)).
Defined.

(** X14 in the scenario. *)
Lemma path_is_extended_before_build_witness :
  exists before e_path after,
    log (@main linux scenario 5) = (before ++ e_path :: build_passed :: after)%list /\
    ev_action e_path = AddPath "/home/runner/work/foo/foo/ros2_ws/install/bin".
Proof.
  assert (Hin : In build_passed (log (@main linux scenario 5))) by found_at 10.
  destruct (@path_is_extended_before_build linux scenario 5 _ Hin eq_refl)
    as (before & e_path & after & Hlog & Hpath & _).
  exists before, e_path, after. split; [exact Hlog|exact Hpath].
Defined.

(** X15 for the mixin [asan]. *)
Lemma mixin_is_registered_before_build_witness :
  exists before e_add e_update e_path after,
    log (@main linux mixin_both 5)
    = (before ++ e_add :: e_update :: e_path :: mixin_build_passed :: after)%list /\
    runs_script e_add "colcon mixin add default 'https://example.com/mixins/index.yaml'" /\
    exit_code e_add = Some 0%Z /\
    runs_script e_update "colcon mixin update default" /\
    exit_code e_update = Some 0%Z.
Proof.
  assert (Hin : In mixin_build_passed (log (@main linux mixin_both 5))) by found_at 12.
  destruct (@mixin_is_registered_before_build linux mixin_both 5 _
              ltac:(discriminate) ltac:(discriminate) Hin eq_refl)
    as (_ & before & e_add & e_update & e_path & after & Hlog & H1 & H2 & H3 & H4 & _).
  exists before, e_add, e_update, e_path, after.
  split; [exact Hlog|]. split; [exact H1|]. split; [exact H2|]. split; [exact H3|exact H4].
Defined.

(** X16 for the build of the scenario. *)
Lemma commands_run_in_the_workspace_witness :
  exists script,
    ["-c"; "colcon build --event-handlers console_cohesion+ --symlink-install --packages-up-to foo "]
    = ["-c"; script] /\
    (exec_cwd (Some (@options linux scenario)) = Some "/home/runner/work/foo/foo/ros2_ws" \/
     exec_cwd (Some (@options linux scenario)) = None).
Proof.
  assert (Hin : In build_passed (log (@main linux scenario 5))) by found_at 10.
  destruct (proj2 (@commands_run_in_the_workspace linux scenario 5 build_passed _ _ _ _
                     Hin eq_refl)) as (script & Hargs & [H|[H _]]);
    exists script; (split; [exact Hargs|]); [left|right]; exact H.
Defined.

(** X17 in the scenario. *)
Lemma mixin_repository_is_ignored_without_name_witness :
  @main linux (with_input scenario "colcon-mixin-repository"
                 "https://example.com/mixins/index.yaml") 5
  = @main linux scenario 5.
Proof.
  exact (@mixin_repository_is_ignored_without_name linux scenario
           "https://example.com/mixins/index.yaml" 5 eq_refl).
Defined.


(** X18 in the scenario: the installation runs right after the pruning and
    is followed by [core.addPath]. *)
Lemma dependency_installation_stage_witness :
  (exists before e_p after,
     log (@main linux scenario 5)
     = (before ++ e_p :: dependencies_installed :: after)%list /\
     ev_action e_p = @prune linux scenario /\ exit_code e_p = Some 0%Z) /\
  (exists before e_next after,
     log (@main linux scenario 5)
     = (before ++ dependencies_installed :: e_next :: after)%list /\
     ev_action e_next = AddPath "/home/runner/work/foo/foo/ros2_ws/install/bin").
Proof.
  assert (Hin : In dependencies_installed (log (@main linux scenario 5))) by found_at 8.
  destruct (@dependency_installation_stage linux scenario 5 _ Hin eq_refl)
    as (_ & Hbefore & _ & Hafter).
  split; [exact Hbefore|exact (Hafter eq_refl)].
Defined.

(** X19 in the scenario: the target is imported right after the command
    that deletes the directories of its name. *)
Lemma target_injection_stage_witness :
  exists before e_rm after,
    log (@main linux scenario 5) = (before ++ e_rm :: target_imported :: after)%list /\
    runs_script e_rm
      ("find " ++ JS.DQ ++ "/home/runner/work/foo/foo/ros2_ws" ++ JS.DQ
       ++ " -type d -and -name " ++ JS.DQ ++ "foo" ++ JS.DQ ++ " | xargs rm -rf") /\
    exit_code e_rm = Some 0%Z.
Proof.
  assert (Hin : In target_imported (log (@main linux scenario 5))) by found_at 6.
  destruct (@target_injection_stage linux scenario 5 _ Hin eq_refl)
    as (_ & (before & e_rm & after & title & Hlog & Hrm & Hzero) & _).
  exists before, e_rm, after. split; [exact Hlog|]. split; [|exact Hzero].
  exists title, None. exact Hrm.
Defined.
